(** * r2-image-uploader: the deduplicating ingestion routes

    A shallow embedding of [src/routes/index.ts]: [getFileExtension],
    [calculateMD5], [uploadImageToR2], [checkIPUploadCount],
    [checkFileExists] and the two route handlers [/upload-from-url] and
    [/upload-from-body].  The file holds two revisions of the module one
    after the other; the embedding follows the later one (from line 102
    on), which has the rate limiter and the dedup index.

    The handlers are [async] functions.  Each is embedded as a program
    over the operations it awaits (D1 statements, the R2 [put], [fetch],
    reading the request) and the ambient values it reads (clock, random
    suffix, runtime key).  A program is run to completion against a
    store for the sequential claims, and two programs are stepped under
    a schedule for the claims about interleaving. *)

From stdpp Require Import gmap strings list.
From Stdlib Require Import ZArith Ascii Lia.

Local Open Scope string_scope.

(** ** JavaScript values the routes rely on *)

Module Js.

(** A JS number as the routes use it: [None] is [NaN], [Some z] an
    integer.  The embedding is exact on the safe integers (below
    [2^53]); strings are taken as ASCII. *)
Definition number := option Z.

Definition MAX_SAFE_INTEGER : Z := 2 ^ 53 - 1.

Definition safe (z : Z) : Prop := (- MAX_SAFE_INTEGER <= z <= MAX_SAFE_INTEGER)%Z.

(** [a > b] and [a >= b]: false as soon as one side is [NaN]. *)
Definition gt (a b : number) : bool :=
  match a, b with
  | Some x, Some y => bool_decide (x > y)%Z
  | _, _ => false
  end.

Definition ge (a b : number) : bool :=
  match a, b with
  | Some x, Some y => bool_decide (x >= y)%Z
  | _, _ => false
  end.

(** Truthiness of a string and of a possibly missing string. *)
Definition truthy_string (s : string) : bool :=
  match s with
  | EmptyString => false
  | String _ _ => true
  end.

Definition truthy (o : option string) : bool :=
  match o with
  | Some s => truthy_string s
  | None => false
  end.

(** [s.startsWith(p)] *)
Definition startsWith (s p : string) : bool := String.prefix p s.

(** White space and line terminators skipped by [parseInt] (ASCII). *)
Definition is_space (a : ascii) : bool :=
  let n := nat_of_ascii a in
  bool_decide (n = 9 \/ n = 10 \/ n = 11 \/ n = 12 \/ n = 13 \/ n = 32)%nat.

Fixpoint trimStart (s : string) : string :=
  match s with
  | String a r => if is_space a then trimStart r else s
  | EmptyString => EmptyString
  end.

(** The value of a character as a digit, in any radix up to 36. *)
Definition digit_value (a : ascii) : option Z :=
  let n := Z.of_nat (nat_of_ascii a) in
  if bool_decide (48 <= n <= 57)%Z then Some (n - 48)%Z
  else if bool_decide (97 <= n <= 122)%Z then Some (n - 87)%Z
  else if bool_decide (65 <= n <= 90)%Z then Some (n - 55)%Z
  else None.

(** The longest prefix of radix-[radix] digits, as a number; [acc] is
    [None] until a first digit has been read. *)
Fixpoint digits (radix : Z) (s : string) (acc : option Z) : option Z :=
  match s with
  | String a r =>
      match digit_value a with
      | Some d =>
          if bool_decide (d < radix)%Z
          then digits radix r (Some (from_option (fun v => v * radix) 0 acc + d))%Z
          else acc
      | None => acc
      end
  | EmptyString => acc
  end.

(** [parseInt(s)] with no radix argument: leading white space, an
    optional sign, an optional [0x]/[0X] prefix, then digits; [NaN]
    when no digit follows. *)
Definition parseInt (s : string) : number :=
  let s1 := trimStart s in
  let '(sign, s2) :=
    match s1 with
    | String "-" r => ((-1)%Z, r)
    | String "+" r => (1%Z, r)
    | _ => (1%Z, s1)
    end in
  let '(radix, s3) :=
    match s2 with
    | String "0" (String "x" r) => (16%Z, r)
    | String "0" (String "X" r) => (16%Z, r)
    | _ => (10%Z, s2)
    end in
  (fun v => sign * v)%Z <$> digits radix s3 None.

(** What a property read [o[k]] on a plain object can give: one of
    the object's own strings, or a member inherited from
    [Object.prototype] (a function or an object, never a string). *)
Inductive value : Type :=
| Str (s : string)
| Inherited (name : string).

Definition truthy_value (v : value) : bool :=
  match v with
  | Str s => truthy_string s
  | Inherited _ => true
  end.

(** The property names every plain object inherits. *)
Definition object_prototype_keys : list string :=
  [ "constructor"; "hasOwnProperty"; "isPrototypeOf"; "propertyIsEnumerable";
    "toLocaleString"; "toString"; "valueOf"; "__proto__";
    "__defineGetter__"; "__defineSetter__"; "__lookupGetter__"; "__lookupSetter__" ].

(** [o[k]] for an object literal [o] whose own properties are strings;
    [None] is [undefined]. *)
Definition get (o : gmap string string) (k : string) : option value :=
  match o !! k with
  | Some v => Some (Str v)
  | None => if bool_decide (k ∈ object_prototype_keys) then Some (Inherited k) else None
  end.

(** [x || d] on a property read. *)
Definition or_else (x : option value) (d : value) : value :=
  match x with
  | Some v => if truthy_value v then v else d
  | None => d
  end.

(** What a function can throw here. *)
Inductive exn : Type :=
| Error (message : string)       (* [throw new Error(message)] *)
| TypeError                      (* raised by the runtime *)
| Rejected.                      (* an awaited operation rejected *)

End Js.

(** ** MD5 (RFC 1321), the digest behind [calculateMD5] *)

Module Md5.

Definition wrap (x : Z) : Z := (x mod 2 ^ 32)%Z.

Definition rotl (x c : Z) : Z :=
  Z.lor (wrap (Z.shiftl x c)) (Z.shiftr x (32 - c)).

Definition not32 (x : Z) : Z := Z.lxor x (2 ^ 32 - 1).

Definition shifts : list Z :=
  [ 7; 12; 17; 22; 7; 12; 17; 22; 7; 12; 17; 22; 7; 12; 17; 22;
    5; 9; 14; 20; 5; 9; 14; 20; 5; 9; 14; 20; 5; 9; 14; 20;
    4; 11; 16; 23; 4; 11; 16; 23; 4; 11; 16; 23; 4; 11; 16; 23;
    6; 10; 15; 21; 6; 10; 15; 21; 6; 10; 15; 21; 6; 10; 15; 21 ]%Z.

(** [floor (2^32 * abs (sin (i + 1)))] *)
Definition sines : list Z :=
  [ 3614090360; 3905402710; 606105819; 3250441966; 4118548399; 1200080426;
    2821735955; 4249261313; 1770035416; 2336552879; 4294925233; 2304563134;
    1804603682; 4254626195; 2792965006; 1236535329; 4129170786; 3225465664;
    643717713; 3921069994; 3593408605; 38016083; 3634488961; 3889429448;
    568446438; 3275163606; 4107603335; 1163531501; 2850285829; 4243563512;
    1735328473; 2368359562; 4294588738; 2272392833; 1839030562; 4259657740;
    2763975236; 1272893353; 4139469664; 3200236656; 681279174; 3936430074;
    3572445317; 76029189; 3654602809; 3873151461; 530742520; 3299628645;
    4096336452; 1126891415; 2878612391; 4237533241; 1700485571; 2399980690;
    4293915773; 2240044497; 1873313359; 4264355552; 2734768916; 1309151649;
    4149444226; 3174756917; 718787259; 3951481745 ]%Z.

(** [n] bytes of [v], least significant first. *)
Fixpoint le_bytes (n : nat) (v : Z) : list Z :=
  match n with
  | O => []
  | S n' => (v mod 256)%Z :: le_bytes n' (v / 256)%Z
  end.

Definition pad (msg : list Z) : list Z :=
  let len := Z.of_nat (length msg) in
  msg ++ [128%Z] ++ replicate (Z.to_nat ((55 - len) mod 64)) 0%Z ++ le_bytes 8 (8 * len).

Definition le_word (bs : list Z) : Z :=
  foldr (fun b acc => b + 256 * acc)%Z 0%Z bs.

(** The list cut into pieces of [n] elements; [fuel] bounds the pieces. *)
Fixpoint chunks {A : Type} (fuel n : nat) (l : list A) : list (list A) :=
  match fuel, l with
  | O, _ | _, [] => []
  | S fuel', _ => take n l :: chunks fuel' n (drop n l)
  end.

Definition state : Type := Z * Z * Z * Z.

Definition round (M : list Z) (st : state) (i : nat) : state :=
  let '(A, B, C, D) := st in
  let '(F, g) :=
    if bool_decide (i < 16)%nat then (Z.lor (Z.land B C) (Z.land (not32 B) D), i)
    else if bool_decide (i < 32)%nat then (Z.lor (Z.land D B) (Z.land (not32 D) C), (5 * i + 1) mod 16)%nat
    else if bool_decide (i < 48)%nat then (Z.lxor B (Z.lxor C D), (3 * i + 5) mod 16)%nat
    else (Z.lxor C (Z.lor B (not32 D)), (7 * i) mod 16)%nat in
  let F' := wrap (F + A + default 0 (sines !! i) + default 0 (M !! g))%Z in
  (D, wrap (B + rotl F' (default 0 (shifts !! i)))%Z, B, C).

Definition block (h : state) (bytes : list Z) : state :=
  let M := le_word <$> chunks 16 4 bytes in
  let '(a0, b0, c0, d0) := h in
  let '(A, B, C, D) := foldl (round M) h (seq 0 64) in
  (wrap (a0 + A), wrap (b0 + B), wrap (c0 + C), wrap (d0 + D))%Z.

Definition initial : state := (1732584193, 4023233417, 2562383102, 271733878)%Z.

Definition hex_digit (d : Z) : ascii :=
  ascii_of_nat (Z.to_nat (if bool_decide (d < 10)%Z then 48 + d else 87 + d)%Z).

Definition hex_byte (b : Z) (rest : string) : string :=
  String (hex_digit (b / 16)) (String (hex_digit (b mod 16)) rest).

Definition digest (msg : list Byte.byte) : string :=
  let bytes := pad ((fun b => Z.of_N (Byte.to_N b)) <$> msg) in
  let '(a, b, c, d) := foldl block initial (chunks (length bytes) 64 bytes) in
  foldr hex_byte "" (le_bytes 4 a ++ le_bytes 4 b ++ le_bytes 4 c ++ le_bytes 4 d).

End Md5.

(** ** [getFileExtension] *)

Definition mimeTypeMap : gmap string string :=
  list_to_map
    [ ("image/jpeg", "jpg");
      ("image/png", "png");
      ("image/gif", "gif");
      ("image/webp", "webp");
      ("image/bmp", "bmp");
      ("image/tiff", "tiff");
      ("image/svg+xml", "svg") ].

Definition getFileExtension (contentType : option string) : Js.exn + Js.value :=
  if negb (Js.truthy contentType) then inl (Js.Error "Content-Type is required")
  else inr (Js.or_else (Js.get mimeTypeMap (default "" contentType)) (Js.Str "unknown")).

(** ** The request, the configuration and the two durable stores *)

(** The variables the routes read from [env(c)], all strings.  (The
    declaration of [Bindings] in [types] predates MAX_UPLOAD_COUNT and
    the D1 binding, which the routes use.) *)
Record Bindings : Type := {
  MAX_BODY_SIZE : string;
  MAX_UPLOAD_COUNT : string;
  R2_BASE_URL : string;
  R2_BUCKET_PREFIX : string;
}.

(** The [url] member of the JSON body of [/upload-from-url], as far as
    the route tells values apart. *)
Inductive JsonUrl : Type :=
| UrlFalsy                        (* no member, [null], [0], [false], ... *)
| UrlString (url : string)
| UrlOther.                       (* a truthy value that is not a string *)

(** What a route reads of the inbound request through [c.req]. *)
Record Request : Type := {
  content_type : option string;       (* [c.req.header('content-type')] *)
  content_length : option string;     (* [c.req.header('content-length')] *)
  cf_connecting_ip : option string;   (* [c.req.header('CF-Connecting-IP')] *)
  json_body : option JsonUrl;         (* [c.req.json()]; [None]: not JSON *)
  raw_body : list Byte.byte;          (* [c.req.arrayBuffer()] *)
}.

Record Context : Type := {
  env : Bindings;
  req : Request;
}.

(** The response of an outbound [fetch]. *)
Record Response : Type := {
  response_content_type : option string;
  response_content_length : option string;
  response_body : option (list Byte.byte);   (* [None]: reading it rejects *)
}.

(** What a route answers: [c.json(body, status)]. *)
Inductive JsonBody : Type :=
| ErrorBody (error : string)          (* [{ error }] *)
| SuccessBody (url : string).         (* [{ success: true, url }] *)

Record Reply : Type := {
  status : Z;
  body : JsonBody;
}.

Definition json (b : JsonBody) (st : Z) : Reply := {| status := st; body := b |}.
Definition json_ok (b : JsonBody) : Reply := json b 200.

(** A row of [uploads(ip, date)] and of [images(url, md5, original_url)]. *)
Record UploadRow : Type := {
  upload_ip : string;
  upload_date : string;
}.

Record ImageRow : Type := {
  image_url : string;
  image_md5 : string;
  image_original_url : option string;
}.

Record R2Object : Type := {
  object_body : list Byte.byte;
  object_content_type : string;
}.

(** The D1 tables, in insertion order, and the R2 bucket. *)
Record Store : Type := {
  uploads : list UploadRow;
  images : list ImageRow;
  r2 : gmap string R2Object;
}.

#[global] Instance UploadRow_eq_dec : EqDecision UploadRow.
Proof. solve_decision. Defined.

(** ** The operations a route awaits or reads *)

Inductive Cmd : Type -> Type :=
| RuntimeKey : Cmd string                                 (* [getRuntimeKey()] *)
| Today : Cmd string                                      (* [dayjs().format('YYYY-MM-DD')] *)
| Timestamp : Cmd string                                  (* [dayjs().format('YYYYMMDDHHmmssSSS')] *)
| RandomSuffix : Cmd string                               (* [Math.random().toString(36).slice(2, 9)] *)
| RequestJson (c : Context) : Cmd JsonUrl                 (* [c.req.json()] *)
| RequestArrayBuffer (c : Context) : Cmd (list Byte.byte) (* [c.req.arrayBuffer()] *)
| Fetch (url : string) : Cmd Response                     (* [fetch(url)] *)
| ResponseArrayBuffer (r : Response) : Cmd (list Byte.byte)
| CountUploads (ip date : string) : Cmd (option Z)        (* [SELECT COUNT( * ) ... .first()] *)
| InsertUpload (ip date : string) : Cmd unit
| SelectImageUrl (md5 : string) : Cmd (option string)     (* [SELECT url ... .first()] *)
| InsertImage (url md5 : string) (original_url : option string) : Cmd unit
| R2Put (key : string) (body : list Byte.byte) (contentType : string) : Cmd unit.

(** An operation that was started, for the trace of a run. *)
Inductive Event : Type :=
| Ev {X : Type} (op : Cmd X).

Definition is_fetch (e : Event) : bool :=
  match e with Ev (Fetch _) => true | _ => false end.

Definition is_put (e : Event) : bool :=
  match e with Ev (R2Put _ _ _) => true | _ => false end.

Definition is_insert_image (e : Event) : bool :=
  match e with Ev (InsertImage _ _ _) => true | _ => false end.

Definition is_insert_upload (e : Event) : bool :=
  match e with Ev (InsertUpload _ _) => true | _ => false end.

Definition is_count_uploads (e : Event) : bool :=
  match e with Ev (CountUploads _ _) => true | _ => false end.

Definition is_select_image (e : Event) : bool :=
  match e with Ev (SelectImageUrl _) => true | _ => false end.

Definition is_read_body (e : Event) : bool :=
  match e with Ev (RequestArrayBuffer _) | Ev (ResponseArrayBuffer _) => true | _ => false end.

(** The operations of the stores that can reject. *)
Inductive Fault : Type :=
| FCountUploads | FInsertUpload | FSelectImageUrl | FInsertImage | FR2Put | FRequestArrayBuffer.

(** What the surroundings of one request decide: the runtime, the
    clock, the random suffix, what the remote server answers, and which
    operations reject. *)
Record World : Type := {
  runtime_key : string;
  today : string;
  timestamp : string;
  random_suffix : string;
  remote : string -> option Response;     (* [None]: [fetch] rejects *)
  rejects : Fault -> bool;
}.

(** ** Programs: the awaits of an [async] function *)

Inductive Prog (A : Type) : Type :=
| Return (a : A)
| Throw (e : Js.exn)
| Await {X : Type} (op : Cmd X) (k : X -> Prog A) (h : Js.exn -> Prog A).

Arguments Return {A} a.
Arguments Throw {A} e.
Arguments Await {A X} op k h.

Definition await {X : Type} (op : Cmd X) : Prog X := Await op Return Throw.

Fixpoint bind {A B : Type} (p : Prog A) (f : A -> Prog B) : Prog B :=
  match p with
  | Return a => f a
  | Throw e => Throw e
  | Await op k h => Await op (fun x => bind (k x) f) (fun e => bind (h e) f)
  end.

(** [try { p } catch (error) { handler }] *)
Fixpoint try_catch {A : Type} (p : Prog A) (handler : Js.exn -> Prog A) : Prog A :=
  match p with
  | Return a => Return a
  | Throw e => handler e
  | Await op k h => Await op (fun x => try_catch (k x) handler) (fun e => try_catch (h e) handler)
  end.

Definition lift {A : Type} (r : Js.exn + A) : Prog A :=
  match r with
  | inl e => Throw e
  | inr a => Return a
  end.

Declare Scope prog_scope.
Delimit Scope prog_scope with prog.
Notation "'let*' x ':=' p 'in' q" := (bind p (fun x => q))
  (at level 10, x name, p at level 100, q at level 200, only parsing) : prog_scope.
Notation "'do*' p 'in' q" := (bind p (fun _ => q))
  (at level 10, p at level 100, q at level 200, only parsing) : prog_scope.
Local Open Scope prog_scope.

(** The result of running a program: what it returned or threw, the
    store it left, and the operations it started, in order. *)
Record Outcome (A : Type) : Type := {
  result : Js.exn + A;
  final : Store;
  trace : list Event;
}.

Arguments result {A} o.
Arguments final {A} o.
Arguments trace {A} o.

(** The outcome [o] of a continuation, after the operations [t]. *)
Definition after {A : Type} (t : list Event) (o : Outcome A) : Outcome A :=
  {| result := result o; final := final o; trace := t ++ trace o |}.

(** What the platform fixes and the sources do not. *)
Record Platform : Type := {
  (** [const url = new URL(base); url.pathname = key; url.toString()];
      [None] when [new URL(base)] throws. *)
  url_with_pathname : string -> string -> option string;
  (** The text a template literal gives for a member inherited from
      [Object.prototype]. *)
  inherited_text : string -> string;
  (** Whether [images.md5] carries a UNIQUE constraint (the table's
      declaration is not part of the sources). *)
  md5_unique : bool;
}.

Section Routes.

Variable pf : Platform.

Definition count_uploads (ip date : string) (rows : list UploadRow) : Z :=
  Z.of_nat (length (filter (fun r => r = {| upload_ip := ip; upload_date := date |}) rows)).

(** The first row of [images] with the given [md5], if any: its [url]. *)
Definition select_image_url (md5 : string) (rows : list ImageRow) : option string :=
  image_url <$> head (filter (fun r => image_md5 r = md5) rows).

Definition set_uploads (s : Store) (u : list UploadRow) : Store :=
  {| uploads := u; images := images s; r2 := r2 s |}.

Definition set_images (s : Store) (i : list ImageRow) : Store :=
  {| uploads := uploads s; images := i; r2 := r2 s |}.

Definition set_r2 (s : Store) (b : gmap string R2Object) : Store :=
  {| uploads := uploads s; images := images s; r2 := b |}.

Definition guarded {X : Type} (w : World) (f : Fault) (s : Store) (ok : X * Store)
  : (Js.exn + X) * Store :=
  if rejects w f then (inl Js.Rejected, s) else (inr ok.1, ok.2).

(** One operation, against the store. *)
Definition exec (w : World) {X : Type} (op : Cmd X) (s : Store) : (Js.exn + X) * Store :=
  match op in Cmd X return (Js.exn + X) * Store with
  | RuntimeKey => (inr (runtime_key w), s)
  | Today => (inr (today w), s)
  | Timestamp => (inr (timestamp w), s)
  | RandomSuffix => (inr (random_suffix w), s)
  | RequestJson c =>
      match json_body (req c) with
      | Some j => (inr j, s)
      | None => (inl Js.Rejected, s)
      end
  | RequestArrayBuffer c => guarded w FRequestArrayBuffer s (raw_body (req c), s)
  | Fetch url =>
      match remote w url with
      | Some r => (inr r, s)
      | None => (inl Js.Rejected, s)
      end
  | ResponseArrayBuffer r =>
      match response_body r with
      | Some b => (inr b, s)
      | None => (inl Js.Rejected, s)
      end
  | CountUploads ip date =>
      guarded w FCountUploads s (Some (count_uploads ip date (uploads s)), s)
  | InsertUpload ip date =>
      guarded w FInsertUpload s
        (tt, set_uploads s (uploads s ++ [{| upload_ip := ip; upload_date := date |}]))
  | SelectImageUrl md5 =>
      guarded w FSelectImageUrl s (select_image_url md5 (images s), s)
  | InsertImage url md5 original_url =>
      if md5_unique pf && bool_decide (is_Some (select_image_url md5 (images s)))
      then (inl Js.Rejected, s)
      else guarded w FInsertImage s
             (tt, set_images s (images s ++ [{| image_url := url; image_md5 := md5;
                                                 image_original_url := original_url |}]))
  | R2Put key body contentType =>
      guarded w FR2Put s
        (tt, set_r2 s (<[key := {| object_body := body; object_content_type := contentType |}]> (r2 s)))
  end.

Definition resume {A X : Type} (k : X -> Prog A) (h : Js.exn -> Prog A) (r : Js.exn + X) : Prog A :=
  match r with
  | inl e => h e
  | inr x => k x
  end.

(** A program run to completion, alone. *)
Fixpoint run {A : Type} (w : World) (p : Prog A) (s : Store) : Outcome A :=
  match p with
  | Return a => {| result := inr a; final := s; trace := [] |}
  | Throw e => {| result := inl e; final := s; trace := [] |}
  | Await op k h =>
      after [Ev op]
        (run w (match (exec w op s).1 with inl e => h e | inr x => k x end) (exec w op s).2)
  end.

(** One step of a program: the operation it waits for is performed. *)
Definition step {A : Type} (w : World) (p : Prog A) (s : Store) : Prog A * Store :=
  match p with
  | Await op k h => (resume k h (exec w op s).1, (exec w op s).2)
  | _ => (p, s)
  end.

(** Two requests in flight on one store: [true] lets the first one
    perform its next operation, [false] the second. *)
Fixpoint interleave {A B : Type} (w1 w2 : World) (schedule : list bool)
    (p1 : Prog A) (p2 : Prog B) (s : Store) : Prog A * Prog B * Store :=
  match schedule with
  | [] => (p1, p2, s)
  | true :: rest => interleave w1 w2 rest (step w1 p1 s).1 p2 (step w1 p1 s).2
  | false :: rest => interleave w1 w2 rest p1 (step w2 p2 s).1 (step w2 p2 s).2
  end.

(** What a finished program holds. *)
Definition finished {A : Type} (p : Prog A) : option (Js.exn + A) :=
  match p with
  | Return a => Some (inr a)
  | Throw e => Some (inl e)
  | Await _ _ _ => None
  end.

(** ** The functions of [routes/index.ts] *)

Definition calculateMD5 (buffer : list Byte.byte) : string := Md5.digest buffer.

Definition template_text (v : Js.value) : string :=
  match v with
  | Js.Str s => s
  | Js.Inherited name => inherited_text pf name
  end.

Definition uploadImageToR2 (c : Context) (body : list Byte.byte) (contentType : string)
  : Prog string :=
  let envValue := env c in
  let* fileExtension := lift (getFileExtension (Some contentType)) in
  let* stamp := await Timestamp in
  let* suffix := await RandomSuffix in
  let key := R2_BUCKET_PREFIX envValue ++ stamp ++ "-" ++ suffix ++ "." ++ template_text fileExtension in
  do* await (R2Put key body contentType) in
  match url_with_pathname pf (R2_BASE_URL envValue) key with
  | None => Throw Js.TypeError
  | Some imageUrl => Return imageUrl
  end.

Definition checkIPUploadCount (c : Context) (ip : string) : Prog bool :=
  let envValue := env c in
  let maxUploadCount := Js.parseInt (MAX_UPLOAD_COUNT envValue) in
  let* today := await Today in
  let* result := await (CountUploads ip today) in
  if match result with
     | Some count => Js.ge (Some count) maxUploadCount
     | None => false
     end
  then Return false
  else
    do* await (InsertUpload ip today) in
    Return true.

Definition checkFileExists (c : Context) (md5 : string) : Prog (option string) :=
  let* result := await (SelectImageUrl md5) in
  Return result.

(** [c.req.header('CF-Connecting-IP') || 'unknown'] *)
Definition client_ip (c : Context) : string :=
  match cf_connecting_ip (req c) with
  | Some ip => if Js.truthy_string ip then ip else "unknown"
  | None => "unknown"
  end.

Definition unsupported_runtime : Reply :=
  json (ErrorBody "This function is only available in Cloudflare Workers") 500.
Definition url_required : Reply := json (ErrorBody "URL is required") 400.
Definition limit_exceeded : Reply := json (ErrorBody "Upload limit exceeded for this IP") 429.
Definition invalid_format : Reply := json (ErrorBody "Invalid image format") 400.
Definition too_large : Reply := json (ErrorBody "Image size exceeds the limit") 400.
Definition upload_failed : Reply := json (ErrorBody "Failed to upload image") 500.
Definition success (url : string) : Reply := json_ok (SuccessBody url).

(** [!contentType || !contentType.startsWith('image/')] *)
Definition not_an_image (contentType : option string) : bool :=
  negb (Js.truthy contentType) || negb (Js.startsWith (default "" contentType) "image/").

(** [contentLength && parseInt(contentLength) > MAX_BODY_SIZE] *)
Definition exceeds (contentLength : option string) (maxBodySize : Js.number) : bool :=
  Js.truthy contentLength && Js.gt (Js.parseInt (default "" contentLength)) maxBodySize.

(** [app.post('/upload-from-url', ...)] *)
Definition upload_from_url (c : Context) : Prog Reply :=
  let* runtimeKey := await RuntimeKey in
  if negb (String.eqb runtimeKey "workerd") then Return unsupported_runtime else
  let envValue := env c in
  let maxBodySize := Js.parseInt (MAX_BODY_SIZE envValue) in
  let* url := await (RequestJson c) in
  match url with
  | UrlFalsy => Return url_required
  | UrlString "" => Return url_required
  | _ =>
    let ip := client_ip c in
    let* admitted := checkIPUploadCount c ip in
    if negb admitted then Return limit_exceeded else
    match url with
    | UrlString url =>
      if Js.startsWith url (R2_BASE_URL envValue) then Return (success url) else
      try_catch
        (let* response := await (Fetch url) in
         let contentType := response_content_type response in
         let contentLength := response_content_length response in
         if not_an_image contentType then Return invalid_format else
         if exceeds contentLength maxBodySize then Return too_large else
         let* body := await (ResponseArrayBuffer response) in
         let md5 := calculateMD5 body in
         let* existingUrl := checkFileExists c md5 in
         if Js.truthy existingUrl then Return (success (default "" existingUrl)) else
         let* imageUrl := uploadImageToR2 c body (default "" contentType) in
         do* await (InsertImage imageUrl md5 (Some url)) in
         Return (success imageUrl))
        (fun error => Return upload_failed)
    | _ => Throw Js.TypeError      (* [url.startsWith] is not a function *)
    end
  end.

(** [app.post('/upload-from-body', ...)] *)
Definition upload_from_body (c : Context) : Prog Reply :=
  let* runtimeKey := await RuntimeKey in
  if negb (String.eqb runtimeKey "workerd") then Return unsupported_runtime else
  let envValue := env c in
  let maxBodySize := Js.parseInt (MAX_BODY_SIZE envValue) in
  let contentType := content_type (req c) in
  let contentLength := content_length (req c) in
  if not_an_image contentType then Return invalid_format else
  if exceeds contentLength maxBodySize then Return too_large else
  let ip := client_ip c in
  let* admitted := checkIPUploadCount c ip in
  if negb admitted then Return limit_exceeded else
  let* body := await (RequestArrayBuffer c) in
  let md5 := calculateMD5 body in
  let* existingUrl := checkFileExists c md5 in
  if Js.truthy existingUrl then Return (success (default "" existingUrl)) else
  let* imageUrl := uploadImageToR2 c body (default "" contentType) in
  do* await (InsertImage imageUrl md5 None) in
  Return (success imageUrl).

End Routes.


(** ** Outcomes in closed form

    The functions below describe what running each part of a route
    gives; the run equations of the next part prove that they agree
    with the programs above. *)

Definition upload_row (ip date : string) : UploadRow :=
  {| upload_ip := ip; upload_date := date |}.

Definition image_row (url md5 : string) (original_url : option string) : ImageRow :=
  {| image_url := url; image_md5 := md5; image_original_url := original_url |}.

Definition stored_object (body : list Byte.byte) (contentType : string) : R2Object :=
  {| object_body := body; object_content_type := contentType |}.

(** The test of [checkIPUploadCount] on the rows of [uploads]: the
    count of the client's rows of the day is not [>=] the maximum. *)
Definition under_quota (w : World) (c : Context) (ip : string) (rows : list UploadRow) : bool :=
  negb (Js.ge (Some (count_uploads ip (today w) rows)) (Js.parseInt (MAX_UPLOAD_COUNT (env c)))).

Section Outcomes.

Variable pf : Platform.

(** The extension [uploadImageToR2] puts in the key. *)
Definition extension_text (contentType : string) : string :=
  match getFileExtension (Some contentType) with
  | inr v => template_text pf v
  | inl _ => ""
  end.

(** The key [uploadImageToR2] generates. *)
Definition object_key (w : World) (c : Context) (contentType : string) : string :=
  R2_BUCKET_PREFIX (env c) ++ timestamp w ++ "-" ++ random_suffix w ++ "."
    ++ extension_text contentType.

(** The index write that follows a store, and the reply. *)
Definition record_image (w : World) (url md5 : string) (original_url : option string)
    (s : Store) : Outcome Reply :=
  if md5_unique pf && bool_decide (is_Some (select_image_url md5 (images s))) then
    {| result := inl Js.Rejected; final := s; trace := [Ev (InsertImage url md5 original_url)] |}
  else if rejects w FInsertImage then
    {| result := inl Js.Rejected; final := s; trace := [Ev (InsertImage url md5 original_url)] |}
  else
    {| result := inr (success url);
       final := set_images s (images s ++ [image_row url md5 original_url]);
       trace := [Ev (InsertImage url md5 original_url)] |}.

(** Dedup check, store and index write, on a body already read. *)
Definition ingest (w : World) (c : Context) (body : list Byte.byte) (contentType : string)
    (original_url : option string) (s : Store) : Outcome Reply :=
  let md5 := calculateMD5 body in
  after [Ev (SelectImageUrl md5)]
    (if rejects w FSelectImageUrl then {| result := inl Js.Rejected; final := s; trace := [] |}
     else if Js.truthy (select_image_url md5 (images s)) then
       {| result := inr (success (default "" (select_image_url md5 (images s))));
          final := s; trace := [] |}
     else
       let key := object_key w c contentType in
       after [Ev Timestamp; Ev RandomSuffix; Ev (R2Put key body contentType)]
         (if rejects w FR2Put then {| result := inl Js.Rejected; final := s; trace := [] |}
          else
            let s' := set_r2 s (<[key := stored_object body contentType]> (r2 s)) in
            match url_with_pathname pf (R2_BASE_URL (env c)) key with
            | None => {| result := inl Js.TypeError; final := s'; trace := [] |}
            | Some imageUrl => record_image w imageUrl md5 original_url s'
            end)).

(** What the [catch] block of [/upload-from-url] makes of an outcome. *)
Definition caught (o : Outcome Reply) : Outcome Reply :=
  match result o with
  | inl _ => {| result := inr upload_failed; final := final o; trace := trace o |}
  | inr _ => o
  end.

(** The [try] block of [/upload-from-url], with its [catch]. *)
Definition fetch_and_ingest (w : World) (c : Context) (url : string) (s : Store) : Outcome Reply :=
  after [Ev (Fetch url)]
    match remote w url with
    | None => {| result := inr upload_failed; final := s; trace := [] |}
    | Some response =>
        if not_an_image (response_content_type response) then
          {| result := inr invalid_format; final := s; trace := [] |}
        else if exceeds (response_content_length response)
                  (Js.parseInt (MAX_BODY_SIZE (env c))) then
          {| result := inr too_large; final := s; trace := [] |}
        else
          after [Ev (ResponseArrayBuffer response)]
            match response_body response with
            | None => {| result := inr upload_failed; final := s; trace := [] |}
            | Some body =>
                caught (ingest w c body (default "" (response_content_type response))
                          (Some url) s)
            end
    end.

(** [n] steps of one program. *)
Fixpoint steps {A : Type} (n : nat) (w : World) (p : Prog A) (s : Store) : Prog A * Store :=
  match n with
  | O => (p, s)
  | S n' => steps n' w (step pf w p s).1 (step pf w p s).2
  end.

End Outcomes.

(** The content types [getFileExtension] knows. *)
Definition recognized : list string :=
  [ "image/jpeg"; "image/png"; "image/gif"; "image/webp"; "image/bmp"; "image/tiff";
    "image/svg+xml" ].

(** A content-length header that declares no number: absent, empty,
    or one [parseInt] makes [NaN] of. *)
Definition undeclared (contentLength : option string) : Prop :=
  match contentLength with
  | None => True
  | Some s => Js.parseInt s = None
  end.

Definition no_event (f : Event -> bool) (t : list Event) : Prop :=
  forallb (fun e => negb (f e)) t = true.

(** ** A deployment to evaluate the routes on *)

Module Sample.

(** The URL API on a base that is a bare http(s) origin and a key of
    unreserved characters; any other base is refused. *)
Definition origin_url (base key : string) : option string :=
  if Js.startsWith base "https://" || Js.startsWith base "http://"
  then Some (base ++ "/" ++ key)
  else None.

Definition native_text (name : string) : string :=
  if String.eqb name "__proto__" then "[object Object]"
  else if String.eqb name "constructor" then "function Object() { [native code] }"
  else "function " ++ name ++ "() { [native code] }".

Definition platform (unique : bool) : Platform :=
  {| url_with_pathname := origin_url; inherited_text := native_text; md5_unique := unique |}.

Definition bindings (max_uploads : string) : Bindings :=
  {| MAX_BODY_SIZE := "10485760";
     MAX_UPLOAD_COUNT := max_uploads;
     R2_BASE_URL := "https://img.example.com";
     R2_BUCKET_PREFIX := "uploads/" |}.

Definition jpeg : list Byte.byte := [Byte.xff; Byte.xd8; Byte.xff; Byte.xe0].

Definition jpeg_response : Response :=
  {| response_content_type := Some "image/jpeg";
     response_content_length := Some "4";
     response_body := Some jpeg |}.

Definition unsized_response : Response :=
  {| response_content_type := Some "image/jpeg";
     response_content_length := None;
     response_body := Some jpeg |}.

Definition html_response : Response :=
  {| response_content_type := Some "text/html";
     response_content_length := Some "120";
     response_body := Some [] |}.

Definition web (url : string) : option Response :=
  if String.eqb url "https://example.org/cat.jpg" then Some jpeg_response
  else if String.eqb url "https://example.org/stream.jpg" then Some unsized_response
  else if String.eqb url "https://example.org/page.html" then Some html_response
  else None.

Definition no_fault (f : Fault) : bool := false.

Definition fault (f : Fault) (g : Fault) : bool :=
  match f, g with
  | FCountUploads, FCountUploads | FInsertUpload, FInsertUpload
  | FSelectImageUrl, FSelectImageUrl | FInsertImage, FInsertImage
  | FR2Put, FR2Put | FRequestArrayBuffer, FRequestArrayBuffer => true
  | _, _ => false
  end.

Definition world (suffix : string) (faults : Fault -> bool) : World :=
  {| runtime_key := "workerd";
     today := "2024-05-01";
     timestamp := "20240501120000000";
     random_suffix := suffix;
     remote := web;
     rejects := faults |}.

Definition body_request (contentType contentLength : option string) (bytes : list Byte.byte)
  : Request :=
  {| content_type := contentType;
     content_length := contentLength;
     cf_connecting_ip := Some "203.0.113.7";
     json_body := None;
     raw_body := bytes |}.

Definition url_request (url : string) : Request :=
  {| content_type := Some "application/json";
     content_length := None;
     cf_connecting_ip := Some "203.0.113.7";
     json_body := Some (UrlString url);
     raw_body := [] |}.

Definition context (max_uploads : string) (r : Request) : Context :=
  {| env := bindings max_uploads; req := r |}.

(** The same deployment with a ceiling of three bytes. *)
Definition tight_context (r : Request) : Context :=
  {| env := {| MAX_BODY_SIZE := "3";
               MAX_UPLOAD_COUNT := "10";
               R2_BASE_URL := "https://img.example.com";
               R2_BUCKET_PREFIX := "uploads/" |};
     req := r |}.

Definition empty : Store := {| uploads := []; images := []; r2 := ∅ |}.

(** A store in which the client has already used [n] uploads of the day. *)
Definition used (n : nat) : Store :=
  {| uploads := replicate n (upload_row "203.0.113.7" "2024-05-01"); images := []; r2 := ∅ |}.

End Sample.

(** ** The earlier revision of the routes

    Lines 1-101 of [routes/index.ts]: the same two routes before the
    rate limiter and the dedup index were added.  Its [getFileExtension]
    is the one above, and its [uploadImageToR2] differs from the later
    one only in not passing [customMetadata: {}] to [put]. *)

Section EarlierRoutes.

Variable pf : Platform.

(** [app.post('/upload-from-url', ...)], lines 46-77; [query_url] is
    [c.req.query('url')]. *)
Definition upload_from_url_v1 (c : Context) (query_url : option string) : Prog Reply :=
  let* runtimeKey := await RuntimeKey in
  if negb (String.eqb runtimeKey "workerd") then Return unsupported_runtime else
  let envValue := env c in
  let maxBodySize := Js.parseInt (MAX_BODY_SIZE envValue) in
  if negb (Js.truthy query_url) then Return url_required else
  let url := default "" query_url in
  try_catch
    (let* response := await (Fetch url) in
     let contentType := response_content_type response in
     let contentLength := response_content_length response in
     if not_an_image contentType then Return invalid_format else
     if exceeds contentLength maxBodySize then Return too_large else
     let* body := await (ResponseArrayBuffer response) in
     let* imageUrl := uploadImageToR2 pf c body (default "" contentType) in
     Return (success imageUrl))
    (fun error => Return upload_failed).

(** [app.post('/upload-from-body', ...)], lines 80-99. *)
Definition upload_from_body_v1 (c : Context) : Prog Reply :=
  let* runtimeKey := await RuntimeKey in
  if negb (String.eqb runtimeKey "workerd") then Return unsupported_runtime else
  let envValue := env c in
  let maxBodySize := Js.parseInt (MAX_BODY_SIZE envValue) in
  let contentType := content_type (req c) in
  let contentLength := content_length (req c) in
  if not_an_image contentType then Return invalid_format else
  if exceeds contentLength maxBodySize then Return too_large else
  let* body := await (RequestArrayBuffer c) in
  let* imageUrl := uploadImageToR2 pf c body (default "" contentType) in
  Return (success imageUrl).

End EarlierRoutes.

(** ** Repeated admission, and what the index should satisfy *)

Section Attempts.

Variable pf : Platform.

(** [k] calls of [checkIPUploadCount] for one client, one after the
    other: what each returned, and the store they leave. *)
Fixpoint attempts (w : World) (c : Context) (ip : string) (k : nat) (s : Store)
  : list (Js.exn + bool) * Store :=
  match k with
  | O => ([], s)
  | S k' =>
      let o := run pf w (checkIPUploadCount c ip) s in
      (result o :: (attempts w c ip k' (final o)).1, (attempts w c ip k' (final o)).2)
  end.

End Attempts.

(** The index holds at most one row per fingerprint, and no row with
    an empty URL. *)
Definition index_ok (rows : list ImageRow) : Prop :=
  NoDup (image_md5 <$> rows) /\ Forall (fun row => image_url row <> "") rows.

(** The URL API never serializes a URL to the empty string. *)
Definition url_api_ok (pf : Platform) : Prop :=
  forall base key url, url_with_pathname pf base key = Some url -> url <> "".

Definition is_d1 (e : Event) : bool :=
  match e with
  | Ev (CountUploads _ _) | Ev (InsertUpload _ _)
  | Ev (SelectImageUrl _) | Ev (InsertImage _ _ _) => true
  | _ => false
  end.

(** * Properties *)

Local Open Scope list_scope.


(** ** Running programs: general facts *)

Arguments Js.ge : simpl never.
Arguments Js.gt : simpl never.
Arguments Js.parseInt : simpl never.
Arguments Js.startsWith : simpl never.
Arguments calculateMD5 : simpl never.

Section Running.

Variable pf : Platform.

Lemma after_nil {A : Type} (o : Outcome A) : after [] o = o.
Proof. destruct o; reflexivity. Qed.

Lemma after_after {A : Type} (t u : list Event) (o : Outcome A) :
  after t (after u o) = after (t ++ u) o.
Proof. unfold after; cbn. by rewrite app_assoc. Qed.

Lemma run_await {X : Type} (w : World) (op : Cmd X) (s : Store) :
  run pf w (await op) s =
    {| result := (exec pf w op s).1;
       final := (exec pf w op s).2;
       trace := [Ev op] |}.
Proof.
  unfold await. cbn [run]. destruct (exec pf w op s) as [[e|x] s']; reflexivity.
Qed.

(** Running [p] and then [f] on its value: the traces are appended and
    the store is threaded; an exception of [p] ends the run. *)
Lemma run_bind {A B : Type} (w : World) (p : Prog A) (f : A -> Prog B) (s : Store) :
  run pf w (bind p f) s =
    match result (run pf w p s) with
    | inr a => after (trace (run pf w p s)) (run pf w (f a) (final (run pf w p s)))
    | inl e =>
        {| result := inl e; final := final (run pf w p s); trace := trace (run pf w p s) |}
    end.
Proof.
  revert s. induction p as [a|e|X op k IHk h IHh]; intros s; cbn [bind run].
  - cbn. by rewrite after_nil.
  - reflexivity.
  - destruct (exec pf w op s) as [[e|x] s']; cbn [fst snd].
    + rewrite IHh. destruct (run pf w (h e) s') as [[?|?] ? ?]; cbn; [reflexivity|].
      by rewrite after_after.
    + rewrite IHk. destruct (run pf w (k x) s') as [[?|?] ? ?]; cbn; [reflexivity|].
      by rewrite after_after.
Qed.

(** [try { p } catch { handler }]: the handler runs on the store the
    failed body left. *)
Lemma run_try_catch {A : Type} (w : World) (p : Prog A) (handler : Js.exn -> Prog A) (s : Store) :
  run pf w (try_catch p handler) s =
    match result (run pf w p s) with
    | inr a => run pf w p s
    | inl e => after (trace (run pf w p s)) (run pf w (handler e) (final (run pf w p s)))
    end.
Proof.
  revert s. induction p as [a|e|X op k IHk h IHh]; intros s; cbn [try_catch run].
  - reflexivity.
  - cbn. by rewrite after_nil.
  - destruct (exec pf w op s) as [[e|x] s']; cbn [fst snd].
    + rewrite IHh. destruct (run pf w (h e) s') as [[?|?] ? ?]; cbn; [|reflexivity].
      by rewrite after_after.
    + rewrite IHk. destruct (run pf w (k x) s') as [[?|?] ? ?]; cbn; [|reflexivity].
      by rewrite after_after.
Qed.

(** Stepping a program until it has finished gives what [run] gives. *)
Lemma steps_finished {A : Type} (w : World) (n : nat) (p q : Prog A) (s s' : Store)
    (r : Js.exn + A) :
  steps pf n w p s = (q, s') -> finished q = Some r ->
  result (run pf w p s) = r /\ final (run pf w p s) = s'.
Proof.
  revert p s. induction n as [|n IH]; intros p s; cbn [steps].
  - intros [= -> ->] Hq. destruct q; cbn in *; simplify_eq; done.
  - destruct p as [a|e|X op k h]; cbn [step fst snd].
    + intros H Hq. apply (IH _ _ H Hq).
    + intros H Hq. apply (IH _ _ H Hq).
    + intros H Hq. cbn [run after result final]. unfold resume in H.
      apply (IH _ _ H Hq).
Qed.

(** A finished program stays as it is. *)
Lemma steps_done {A : Type} (w : World) (n : nat) (p : Prog A) (s : Store) :
  is_Some (finished p) -> steps pf n w p s = (p, s).
Proof.
  intros Hp. induction n as [|n IH]; [reflexivity|].
  destruct p; cbn in *; [done|done|]. by destruct Hp.
Qed.

(** Every program finishes: after [n] steps, for some [n], it holds
    the result of [run]. *)
Lemma run_steps {A : Type} (w : World) (p : Prog A) (s : Store) :
  exists n q, steps pf n w p s = (q, final (run pf w p s))
              /\ finished q = Some (result (run pf w p s)).
Proof.
  revert s. induction p as [a|e|X op k IHk h IHh]; intros s.
  - exists 0%nat, (Return a). done.
  - exists 0%nat, (Throw e). done.
  - cbn [run after result final].
    destruct (exec pf w op s) as [[e|x] s1] eqn:He; cbn [fst snd].
    + destruct (IHh e s1) as (n & q & Hn & Hq). exists (S n), q.
      cbn [steps step]. rewrite He. done.
    + destruct (IHk x s1) as (n & q & Hn & Hq). exists (S n), q.
      cbn [steps step]. rewrite He. done.
Qed.

(** Once a program has finished, more steps change nothing. *)
Lemma steps_more {A : Type} (w : World) (n m : nat) (p q : Prog A) (s s' : Store) :
  steps pf n w p s = (q, s') -> is_Some (finished q) -> (n <= m)%nat ->
  steps pf m w p s = (q, s').
Proof.
  revert m p s. induction n as [|n IH]; intros m p s; cbn [steps].
  - intros [= -> ->] Hq _. by apply steps_done.
  - intros Hn Hq Hle. destruct m as [|m]; [lia|]. cbn [steps].
    apply IH; [done|done|lia].
Qed.

(** A schedule that lets only the first request run, then only the
    second. *)
Lemma interleave_serial {A B : Type} (w1 w2 : World) (n1 n2 : nat)
    (p1 : Prog A) (p2 : Prog B) (s : Store) :
  interleave pf w1 w2 (replicate n1 true ++ replicate n2 false) p1 p2 s =
    let a := steps pf n1 w1 p1 s in
    let b := steps pf n2 w2 p2 a.2 in
    (a.1, b.1, b.2).
Proof.
  revert p1 s. induction n1 as [|n1 IH]; intros p1 s; cbn [replicate app interleave steps].
  - cbn [fst snd]. revert p2 s. induction n2 as [|n2 IH2]; intros p2 s.
    + reflexivity.
    + cbn [replicate interleave steps]. apply IH2.
  - apply IH.
Qed.

End Running.

Ltac run_step :=
  rewrite ?run_bind, ?run_await, ?run_try_catch;
  unfold guarded;
  cbn [exec fst snd result final trace app run lift negb after].
Ltac run_all := repeat (progress run_step).

(** ** Run equations of the functions and of the two routes *)

Section Equations.

Variable pf : Platform.

Lemma checkIPUploadCount_run (w : World) (c : Context) (ip : string) (s : Store) :
  run pf w (checkIPUploadCount c ip) s =
    if rejects w FCountUploads then
      {| result := inl Js.Rejected; final := s;
         trace := [Ev Today; Ev (CountUploads ip (today w))] |}
    else if negb (under_quota w c ip (uploads s)) then
      {| result := inr false; final := s;
         trace := [Ev Today; Ev (CountUploads ip (today w))] |}
    else if rejects w FInsertUpload then
      {| result := inl Js.Rejected; final := s;
         trace := [Ev Today; Ev (CountUploads ip (today w)); Ev (InsertUpload ip (today w))] |}
    else
      {| result := inr true;
         final := set_uploads s (uploads s ++ [upload_row ip (today w)]);
         trace := [Ev Today; Ev (CountUploads ip (today w)); Ev (InsertUpload ip (today w))] |}.
Proof.
  unfold checkIPUploadCount, under_quota. run_all.
  destruct (rejects w FCountUploads); run_all; [reflexivity|].
  destruct (Js.ge _ (Js.parseInt _)); run_all; [reflexivity|].
  destruct (rejects w FInsertUpload); reflexivity.
Qed.

Lemma checkFileExists_run (w : World) (c : Context) (md5 : string) (s : Store) :
  run pf w (checkFileExists c md5) s =
    {| result := if rejects w FSelectImageUrl then inl Js.Rejected
                 else inr (select_image_url md5 (images s));
       final := s;
       trace := [Ev (SelectImageUrl md5)] |}.
Proof.
  unfold checkFileExists. run_all.
  destruct (rejects w FSelectImageUrl); reflexivity.
Qed.

Lemma uploadImageToR2_run (w : World) (c : Context) (body : list Byte.byte)
    (contentType : string) (s : Store) :
  contentType <> "" ->
  let key := object_key pf w c contentType in
  run pf w (uploadImageToR2 pf c body contentType) s =
    if rejects w FR2Put then
      {| result := inl Js.Rejected; final := s;
         trace := [Ev Timestamp; Ev RandomSuffix; Ev (R2Put key body contentType)] |}
    else
      {| result := match url_with_pathname pf (R2_BASE_URL (env c)) key with
                   | Some imageUrl => inr imageUrl
                   | None => inl Js.TypeError
                   end;
         final := set_r2 s (<[key := stored_object body contentType]> (r2 s));
         trace := [Ev Timestamp; Ev RandomSuffix; Ev (R2Put key body contentType)] |}.
Proof.
  intros Hct key. subst key. unfold uploadImageToR2, object_key, extension_text.
  unfold getFileExtension.
  destruct contentType as [|a ct]; [done|]. cbn [Js.truthy Js.truthy_string negb default].
  run_all.
  destruct (rejects w FR2Put); run_all; [reflexivity|].
  destruct (url_with_pathname _ _ _); reflexivity.
Qed.

Lemma image_prefix_nonempty (contentType : string) :
  Js.startsWith contentType "image/" = true -> contentType <> "".
Proof. intros H ->. discriminate H. Qed.

Lemma not_an_image_false (contentType : option string) :
  not_an_image contentType = false ->
  exists ct, contentType = Some ct /\ Js.startsWith ct "image/" = true /\ ct <> "".
Proof.
  unfold not_an_image. destruct contentType as [ct|]; cbn; [|discriminate].
  intros H. apply orb_false_elim in H as [_ H]. apply negb_false_iff in H.
  exists ct. eauto using image_prefix_nonempty.
Qed.

Lemma not_an_image_image (contentType : string) :
  Js.startsWith contentType "image/" = true -> not_an_image (Some contentType) = false.
Proof.
  intros H. unfold not_an_image. cbn. rewrite H.
  destruct contentType; [discriminate H|reflexivity].
Qed.

Lemma ingest_run (w : World) (c : Context) (body : list Byte.byte) (contentType : string)
    (original_url : option string) (s : Store) :
  contentType <> "" ->
  run pf w
    (bind (checkFileExists c (calculateMD5 body)) (fun existingUrl =>
       if Js.truthy existingUrl then Return (success (default "" existingUrl)) else
       bind (uploadImageToR2 pf c body contentType) (fun imageUrl =>
         bind (await (InsertImage imageUrl (calculateMD5 body) original_url)) (fun _ =>
           Return (success imageUrl))))) s
  = ingest pf w c body contentType original_url s.
Proof.
  intros Hct. unfold ingest. rewrite run_bind, checkFileExists_run. cbn [result final trace].
  destruct (rejects w FSelectImageUrl); [reflexivity|].
  destruct (Js.truthy _); [reflexivity|].
  rewrite run_bind, uploadImageToR2_run by done.
  destruct (rejects w FR2Put); [reflexivity|]. cbn [result final trace].
  destruct (url_with_pathname _ _ _) as [imageUrl|]; [|reflexivity].
  unfold record_image. run_all. cbn [images set_r2].
  destruct (md5_unique pf && _); [reflexivity|]. cbn [fst snd].
  destruct (rejects w FInsertImage); reflexivity.
Qed.

Lemma upload_from_body_run (w : World) (c : Context) (s : Store) :
  run pf w (upload_from_body pf c) s =
    after [Ev RuntimeKey]
      (if negb (String.eqb (runtime_key w) "workerd") then
         {| result := inr unsupported_runtime; final := s; trace := [] |}
       else if not_an_image (content_type (req c)) then
         {| result := inr invalid_format; final := s; trace := [] |}
       else if exceeds (content_length (req c)) (Js.parseInt (MAX_BODY_SIZE (env c))) then
         {| result := inr too_large; final := s; trace := [] |}
       else
         let a := run pf w (checkIPUploadCount c (client_ip c)) s in
         match result a with
         | inl e => {| result := inl e; final := final a; trace := trace a |}
         | inr false => {| result := inr limit_exceeded; final := final a; trace := trace a |}
         | inr true =>
             after (trace a ++ [Ev (RequestArrayBuffer c)])
               (if rejects w FRequestArrayBuffer then
                  {| result := inl Js.Rejected; final := final a; trace := [] |}
                else ingest pf w c (raw_body (req c)) (default "" (content_type (req c)))
                       None (final a))
         end).
Proof.
  unfold upload_from_body. run_all.
  destruct (negb _); [reflexivity|].
  destruct (not_an_image _) eqn:Himg; [reflexivity|].
  apply not_an_image_false in Himg as (ct & -> & _ & Hne).
  destruct (exceeds _ _); [reflexivity|].
  run_all.
  destruct (run pf w (checkIPUploadCount c (client_ip c)) s) as [[e|[|]] s1 t1];
    cbn [result final trace negb].
  - reflexivity.
  - rewrite run_bind, run_await. cbn [exec fst snd result final trace]. unfold guarded.
    destruct (rejects w FRequestArrayBuffer); cbn [fst snd].
    + unfold after; cbn. by rewrite app_nil_r.
    + change (default "" (Some ct)) with ct. rewrite ingest_run by done.
      by rewrite !after_after.
  - unfold after; cbn. by rewrite app_nil_r.
Qed.

Lemma fetch_and_ingest_run (w : World) (c : Context) (url : string) (s : Store) :
  run pf w
    (try_catch
       (bind (await (Fetch url)) (fun response =>
          let contentType := response_content_type response in
          let contentLength := response_content_length response in
          if not_an_image contentType then Return invalid_format else
          if exceeds contentLength (Js.parseInt (MAX_BODY_SIZE (env c)))
          then Return too_large else
          bind (await (ResponseArrayBuffer response)) (fun body =>
            let md5 := calculateMD5 body in
            bind (checkFileExists c md5) (fun existingUrl =>
              if Js.truthy existingUrl then Return (success (default "" existingUrl)) else
              bind (uploadImageToR2 pf c body (default "" contentType)) (fun imageUrl =>
                bind (await (InsertImage imageUrl md5 (Some url))) (fun _ =>
                  Return (success imageUrl)))))))
       (fun error => Return upload_failed)) s
  = fetch_and_ingest pf w c url s.
Proof.
  unfold fetch_and_ingest. rewrite run_try_catch, run_bind, run_await.
  cbn [exec fst snd result final trace].
  destruct (remote w url) as [response|]; cbn [fst snd]; [|reflexivity].
  cbv zeta.
  destruct (not_an_image _) eqn:Himg; [reflexivity|].
  apply not_an_image_false in Himg as (ct & Hct & _ & Hne). rewrite Hct.
  change (default "" (Some ct)) with ct.
  destruct (exceeds _ _); [reflexivity|].
  rewrite run_bind, run_await. cbn [exec fst snd result final trace].
  destruct (response_body response) as [body|]; cbn [fst snd]; [|reflexivity].
  rewrite (ingest_run w c body ct (Some url) s Hne).
  destruct (ingest pf w c body ct (Some url) s) as [[e|r] s1 t1];
    unfold after, caught; cbn; by rewrite ?app_nil_r.
Qed.

Lemma upload_from_url_run (w : World) (c : Context) (s : Store) :
  run pf w (upload_from_url pf c) s =
    after [Ev RuntimeKey]
      (if negb (String.eqb (runtime_key w) "workerd") then
         {| result := inr unsupported_runtime; final := s; trace := [] |}
       else
         after [Ev (RequestJson c)]
           match json_body (req c) with
           | None => {| result := inl Js.Rejected; final := s; trace := [] |}
           | Some UrlFalsy | Some (UrlString "") =>
               {| result := inr url_required; final := s; trace := [] |}
           | Some url =>
               let a := run pf w (checkIPUploadCount c (client_ip c)) s in
               match result a with
               | inl e => {| result := inl e; final := final a; trace := trace a |}
               | inr false =>
                   {| result := inr limit_exceeded; final := final a; trace := trace a |}
               | inr true =>
                   after (trace a)
                     match url with
                     | UrlString url =>
                         if Js.startsWith url (R2_BASE_URL (env c)) then
                           {| result := inr (success url); final := final a; trace := [] |}
                         else fetch_and_ingest pf w c url (final a)
                     | _ => {| result := inl Js.TypeError; final := final a; trace := [] |}
                     end
               end
           end).
Proof.
  unfold upload_from_url. run_all.
  destruct (negb _); [reflexivity|].
  run_all.
  destruct (json_body (req c)) as [[|url|]|]; cbn [fst snd]; try reflexivity.
  - destruct url as [|ch url]; [reflexivity|].
    rewrite run_bind.
    destruct (run pf w (checkIPUploadCount c (client_ip c)) s) as [[e|[|]] s1 t1];
      cbn [result final trace negb].
    + reflexivity.
    + destruct (Js.startsWith _ _); [reflexivity|]. by rewrite fetch_and_ingest_run.
    + unfold after; cbn. by rewrite app_nil_r.
  - rewrite run_bind.
    destruct (run pf w (checkIPUploadCount c (client_ip c)) s) as [[e|[|]] s1 t1];
      cbn [result final trace negb]; try reflexivity.
    unfold after; cbn. by rewrite app_nil_r.
Qed.

End Equations.

(** ** The embedding evaluated: [parseInt], the extension table, MD5 *)

Example parseInt_limit : Js.parseInt "10485761" = Some 10485761%Z.
Proof. reflexivity. Qed.

Example parseInt_hex : Js.parseInt " -0x1f rest" = Some (-31)%Z.
Proof. reflexivity. Qed.

Example parseInt_nan : Js.parseInt "abc" = None /\ Js.parseInt "" = None /\ Js.parseInt "0x" = None.
Proof. repeat split. Qed.

Example ext_png : getFileExtension (Some "image/png") = inr (Js.Str "png").
Proof. reflexivity. Qed.

Example ext_ctor : getFileExtension (Some "constructor") = inr (Js.Inherited "constructor").
Proof. reflexivity. Qed.

Example md5_empty : Md5.digest [] = "d41d8cd98f00b204e9800998ecf8427e".
Proof. vm_compute. reflexivity. Qed.
Example md5_abc : Md5.digest [Byte.x61; Byte.x62; Byte.x63] = "900150983cd24fb0d6963f7d28e17f72".
Proof. vm_compute. reflexivity. Qed.
Example md5_jpeg : Md5.digest [Byte.xff; Byte.xd8; Byte.xff; Byte.xe0] = "d03d864b7f43db9ce34df5f720509d0e".
Proof. vm_compute. reflexivity. Qed.
Example md5_long : Md5.digest (replicate 70 Byte.x78) = "7d56c0f83fd1e320d60ea2f13dfdeedd".
Proof. vm_compute. reflexivity. Qed.

(** ** Content types *)

Ltac decide_not_elem := apply (proj1 (bool_decide_eq_false _)); vm_compute; reflexivity.

Lemma recognized_lookup (ct : string) : ct ∉ recognized -> mimeTypeMap !! ct = None.
Proof. intros H. apply not_elem_of_list_to_map_1. exact H. Qed.

(** C8 (as amended). [getFileExtension] gives "unknown" for every
    content type that is not empty, not in the table, and not the name
    of a member every object inherits; it maps the seven recognized
    types as the table says; and it throws
    [Error('Content-Type is required')] for a missing content type and
    for the empty string alike. *)
Theorem getFileExtension_cases (ct : string) :
  ct <> "" -> ct ∉ recognized -> ct ∉ Js.object_prototype_keys ->
  getFileExtension (Some ct) = inr (Js.Str "unknown")
  /\ getFileExtension (Some "image/jpeg") = inr (Js.Str "jpg")
  /\ getFileExtension (Some "image/png") = inr (Js.Str "png")
  /\ getFileExtension (Some "image/gif") = inr (Js.Str "gif")
  /\ getFileExtension (Some "image/webp") = inr (Js.Str "webp")
  /\ getFileExtension (Some "image/bmp") = inr (Js.Str "bmp")
  /\ getFileExtension (Some "image/tiff") = inr (Js.Str "tiff")
  /\ getFileExtension (Some "image/svg+xml") = inr (Js.Str "svg")
  /\ getFileExtension None = inl (Js.Error "Content-Type is required")
  /\ getFileExtension (Some "") = inl (Js.Error "Content-Type is required").
Proof.
  intros Hne Hrec Hproto. split; [|repeat split].
  unfold getFileExtension, Js.get.
  destruct ct as [|a ct]; [done|]. cbn [Js.truthy Js.truthy_string negb default from_option id].
  rewrite (recognized_lookup _ Hrec).
  by rewrite bool_decide_eq_false_2.
Qed.

Lemma getFileExtension_cases_witness :
  getFileExtension (Some "image/xyz") = inr (Js.Str "unknown").
Proof.
  apply (getFileExtension_cases "image/xyz"); [discriminate | |];
    decide_not_elem.
Defined.

(** C8, as stated, fails: the empty string is a content type that is
    not null and not in the table, and [getFileExtension] throws on it;
    "constructor" is another, and the result is not a string at all. *)
Lemma empty_content_type_throws :
  ("" ∉ recognized)
  /\ getFileExtension (Some "") = inl (Js.Error "Content-Type is required")
  /\ ("constructor" ∉ recognized)
  /\ getFileExtension (Some "constructor") = inr (Js.Inherited "constructor").
Proof.
  repeat split; decide_not_elem.
Qed.

(** Under a content type the routes accept, the extension is a string
    of the table or "unknown". *)
Lemma image_extension (ct : string) :
  Js.startsWith ct "image/" = true ->
  exists ext, getFileExtension (Some ct) = inr (Js.Str ext)
              /\ (ct ∉ recognized -> ext = "unknown").
Proof.
  intros Himg. pose proof (image_prefix_nonempty _ Himg) as Hne.
  unfold getFileExtension, Js.get.
  destruct ct as [|a ct]; [done|]. cbn [Js.truthy Js.truthy_string negb default from_option id].
  destruct (mimeTypeMap !! String a ct) as [ext|] eqn:Hl.
  - exists (if Js.truthy_string ext then ext else "unknown"). split.
    + cbn. by destruct (Js.truthy_string ext).
    + intros Hrec. rewrite (recognized_lookup _ Hrec) in Hl. discriminate.
  - exists "unknown". split; [|done].
    rewrite bool_decide_eq_false_2; [done|].
    intros Hin. revert Himg. clear -Hin.
    unfold Js.object_prototype_keys in Hin.
    repeat (apply elem_of_cons in Hin as [->|Hin]; [by vm_compute|]).
    by apply elem_of_nil in Hin.
Qed.

(** ** The size ceiling of [/upload-from-body] *)

Lemma parseInt_truthy (s : string) (n : Z) : Js.parseInt s = Some n -> Js.truthy (Some s) = true.
Proof. destruct s; [discriminate|reflexivity]. Qed.

Lemma exceeds_numbers (s : string) (n m : Z) (maxBodySize : Js.number) :
  Js.parseInt s = Some n -> maxBodySize = Some m ->
  exceeds (Some s) maxBodySize = bool_decide (n > m)%Z.
Proof.
  intros Hn ->. unfold exceeds. rewrite (parseInt_truthy _ _ Hn).
  cbn [default from_option id andb]. by rewrite Hn.
Qed.

(** C7. With the worker runtime, an image content type and a declared
    content-length above MAX_BODY_SIZE (both safe integers),
    [/upload-from-body] answers 400 [{error: "Image size exceeds the
    limit"}]; the only operation it has started is the runtime check:
    the body is not read and nothing is stored. *)
Theorem too_large_body_rejected (pf : Platform) (w : World) (c : Context) (s : Store)
    (contentType contentLength : string) (n m : Z) :
  runtime_key w = "workerd" ->
  content_type (req c) = Some contentType ->
  Js.startsWith contentType "image/" = true ->
  content_length (req c) = Some contentLength ->
  Js.parseInt contentLength = Some n ->
  Js.parseInt (MAX_BODY_SIZE (env c)) = Some m ->
  Js.safe n -> Js.safe m ->
  (n > m)%Z ->
  run pf w (upload_from_body pf c) s =
    {| result := inr {| status := 400; body := ErrorBody "Image size exceeds the limit" |};
       final := s;
       trace := [Ev RuntimeKey] |}.
Proof.
  intros Hrt Hct Himg Hcl Hn Hm _ _ Hgt.
  rewrite upload_from_body_run, Hrt, Hct, Hcl.
  rewrite (not_an_image_image _ Himg), (exceeds_numbers _ _ _ _ Hn Hm).
  by rewrite bool_decide_eq_true_2.
Qed.

Lemma too_large_body_rejected_witness :
  let c := Sample.context "10"
             (Sample.body_request (Some "image/png") (Some "10485761") Sample.jpeg) in
  run (Sample.platform true) (Sample.world "k3j9x2a" Sample.no_fault)
      (upload_from_body (Sample.platform true) c) Sample.empty =
    {| result := inr {| status := 400; body := ErrorBody "Image size exceeds the limit" |};
       final := Sample.empty;
       trace := [Ev RuntimeKey] |}.
Proof.
  apply (too_large_body_rejected _ _ _ _ "image/png" "10485761" 10485761 10485760);
    try reflexivity; unfold Js.safe, Js.MAX_SAFE_INTEGER; lia.
Defined.

(** ** Admission *)

Lemma count_uploads_app (ip date : string) (rows more : list UploadRow) :
  count_uploads ip date (rows ++ more)
  = (count_uploads ip date rows + count_uploads ip date more)%Z.
Proof. unfold count_uploads. rewrite filter_app, length_app. lia. Qed.

Lemma count_uploads_same (ip date : string) :
  count_uploads ip date [upload_row ip date] = 1%Z.
Proof.
  unfold count_uploads, upload_row. rewrite filter_cons_True by done. reflexivity.
Qed.

Lemma count_uploads_other (ip date ip' date' : string) :
  (ip', date') <> (ip, date) -> count_uploads ip' date' [upload_row ip date] = 0%Z.
Proof.
  intros Hne. unfold count_uploads, upload_row.
  rewrite filter_cons_False; [reflexivity|]. intros [= -> ->]. done.
Qed.

Lemma under_quota_number (w : World) (c : Context) (ip : string) (rows : list UploadRow) (m : Z) :
  Js.parseInt (MAX_UPLOAD_COUNT (env c)) = Some m ->
  under_quota w c ip rows = bool_decide (count_uploads ip (today w) rows < m)%Z.
Proof.
  intros Hm. unfold under_quota, Js.ge. rewrite Hm.
  destruct (decide (count_uploads ip (today w) rows < m)%Z).
  - rewrite bool_decide_eq_false_2, bool_decide_eq_true_2 by lia. reflexivity.
  - rewrite bool_decide_eq_true_2, bool_decide_eq_false_2 by lia. reflexivity.
Qed.

(** C2. With a configured maximum [m] (a safe integer) and a D1 that
    answers: while the client's count of the day is below [m],
    [checkIPUploadCount] returns true and appends exactly one row for
    that client and day, so that its count grows by one and no other
    count changes; once the count has reached [m] it returns false and
    leaves the store as it was, and a request of either route that gets
    as far as the admission check is answered 429
    [{error: "Upload limit exceeded for this IP"}], whatever else it
    carries. *)
Theorem admission_quota (pf : Platform) (w : World) (c : Context) (s : Store)
    (ip : string) (m : Z) :
  Js.parseInt (MAX_UPLOAD_COUNT (env c)) = Some m ->
  Js.safe m ->
  rejects w FCountUploads = false ->
  rejects w FInsertUpload = false ->
  let n := count_uploads ip (today w) (uploads s) in
  let a := run pf w (checkIPUploadCount c ip) s in
  ((n < m)%Z ->
     result a = inr true
     /\ final a = set_uploads s (uploads s ++ [upload_row ip (today w)])
     /\ count_uploads ip (today w) (uploads (final a)) = (n + 1)%Z
     /\ (forall ip' date', (ip', date') <> (ip, today w) ->
           count_uploads ip' date' (uploads (final a)) = count_uploads ip' date' (uploads s)))
  /\ ((n >= m)%Z ->
        result a = inr false
        /\ final a = s
        /\ no_event is_insert_upload (trace a)
        /\ (client_ip c = ip ->
            let o := run pf w (upload_from_body pf c) s in
            existsb is_count_uploads (trace o) = true ->
            result o = inr {| status := 429; body := ErrorBody "Upload limit exceeded for this IP" |}
            /\ final o = s)
        /\ (client_ip c = ip ->
            let o := run pf w (upload_from_url pf c) s in
            existsb is_count_uploads (trace o) = true ->
            result o = inr {| status := 429; body := ErrorBody "Upload limit exceeded for this IP" |}
            /\ final o = s)).
Proof.
  intros Hm _ Hcount Hinsert n a. subst n a.
  rewrite checkIPUploadCount_run, Hcount, Hinsert, (under_quota_number _ _ _ _ _ Hm).
  split.
  - intros Hlt. rewrite bool_decide_eq_true_2 by done. cbn [negb result final uploads set_uploads].
    split_and!; [done|done| |].
    + rewrite count_uploads_app, count_uploads_same. reflexivity.
    + intros ip' date' Hne. rewrite count_uploads_app, (count_uploads_other _ _ _ _ Hne). lia.
  - intros Hge. rewrite bool_decide_eq_false_2 by lia. cbn [negb result final trace].
    split_and!; [done|done|done| |].
    + intros <-. cbv zeta.
      rewrite upload_from_body_run.
      destruct (negb _); [discriminate|].
      destruct (not_an_image _); [discriminate|].
      destruct (exceeds _ _); [discriminate|].
      cbv zeta.
      rewrite checkIPUploadCount_run, Hcount, (under_quota_number _ _ _ _ _ Hm).
      rewrite bool_decide_eq_false_2 by lia. done.
    + intros <-. cbv zeta.
      rewrite upload_from_url_run.
      destruct (negb _); [discriminate|].
      destruct (json_body (req c)) as [[|[|ch url]|]|]; try discriminate;
        cbv zeta;
        rewrite checkIPUploadCount_run, Hcount, (under_quota_number _ _ _ _ _ Hm);
        rewrite bool_decide_eq_false_2 by lia; done.
Qed.

Lemma admission_quota_witness :
  let pf := Sample.platform true in
  let w := Sample.world "k3j9x2a" Sample.no_fault in
  let c := Sample.context "2" (Sample.body_request (Some "image/jpeg") (Some "4") Sample.jpeg) in
  (result (run pf w (checkIPUploadCount c "203.0.113.7") (Sample.used 1)) = inr true
   /\ count_uploads "203.0.113.7" "2024-05-01"
        (uploads (final (run pf w (checkIPUploadCount c "203.0.113.7") (Sample.used 1)))) = 2%Z)
  /\ result (run pf w (checkIPUploadCount c "203.0.113.7") (Sample.used 2)) = inr false
  /\ result (run pf w (upload_from_body pf c) (Sample.used 2))
     = inr {| status := 429; body := ErrorBody "Upload limit exceeded for this IP" |}.
Proof.
  intros pf w c.
  assert (H2 : Js.parseInt (MAX_UPLOAD_COUNT (env c)) = Some 2%Z) by reflexivity.
  assert (Hs : Js.safe 2) by (unfold Js.safe, Js.MAX_SAFE_INTEGER; lia).
  split; [|split].
  - pose proof (proj1 (admission_quota pf w c (Sample.used 1) "203.0.113.7" 2 H2 Hs
                         eq_refl eq_refl)) as H.
    cbv zeta in H. destruct H as (Hr & _ & Hc & _); [vm_compute; reflexivity|].
    split; [exact Hr | exact Hc].
  - pose proof (proj2 (admission_quota pf w c (Sample.used 2) "203.0.113.7" 2 H2 Hs
                         eq_refl eq_refl)) as H.
    cbv zeta in H. destruct H as (Hr & _); [vm_compute; discriminate|]. exact Hr.
  - pose proof (proj2 (admission_quota pf w c (Sample.used 2) "203.0.113.7" 2 H2 Hs
                         eq_refl eq_refl)) as H.
    cbv zeta in H. destruct H as (_ & _ & _ & Hb & _); [vm_compute; discriminate|].
    apply Hb; reflexivity.
Defined.

(** ** What the tail of a route leaves of the tables *)

Lemma record_image_cases (pf : Platform) (w : World) (url md5 : string)
    (original_url : option string) (s : Store) :
  uploads (final (record_image pf w url md5 original_url s)) = uploads s
  /\ r2 (final (record_image pf w url md5 original_url s)) = r2 s
  /\ (forall r, result (record_image pf w url md5 original_url s) = inr r -> r = success url).
Proof.
  unfold record_image.
  destruct (md5_unique pf && _); [by split_and!|].
  destruct (rejects w FInsertImage); split_and!; try done.
  by intros r [= <-].
Qed.

(** [ingest] never touches [uploads]; when it answers, the answer is a
    success. *)
Lemma ingest_cases (pf : Platform) (w : World) (c : Context) (body : list Byte.byte)
    (contentType : string) (original_url : option string) (s : Store) :
  uploads (final (ingest pf w c body contentType original_url s)) = uploads s
  /\ (forall r, result (ingest pf w c body contentType original_url s) = inr r ->
        exists url, r = success url).
Proof.
  unfold ingest. cbn [after result final].
  destruct (rejects w FSelectImageUrl); [by split|].
  destruct (Js.truthy _); [split; [done|intros r [= <-]; eauto]|].
  cbn [after result final]. cbv zeta.
  destruct (rejects w FR2Put); [by split|].
  destruct (url_with_pathname _ _ _) as [imageUrl|]; [|by split].
  match goal with |- context [record_image pf w ?u ?m ?o ?s'] =>
    destruct (record_image_cases pf w u m o s') as (Hu & _ & Hr) end.
  split; [by rewrite Hu|]. intros r Hres. eauto.
Qed.

Lemma fetch_and_ingest_cases (pf : Platform) (w : World) (c : Context) (url : string) (s : Store) :
  uploads (final (fetch_and_ingest pf w c url s)) = uploads s
  /\ is_Some (match result (fetch_and_ingest pf w c url s) with
              | inr r => Some r | inl _ => None end).
Proof.
  unfold fetch_and_ingest. cbn [after result final].
  destruct (remote w url) as [response|]; [|by split].
  destruct (not_an_image _); [by split|].
  destruct (exceeds _ _); [by split|].
  cbn [after result final].
  destruct (response_body response) as [body|]; [|by split].
  match goal with |- context [ingest pf w c ?b ?ct ?o s] =>
    destruct (ingest_cases pf w c b ct o s) as (Hu & _);
    unfold caught; destruct (ingest pf w c b ct o s) as [[e|r] s1 t1] end; by split.
Qed.

(** ** Which requests are charged *)

(** C3 (as amended). On [/upload-from-body] every answer other than a
    success (400 invalid format, 400 too large, 429 rate limited, 500
    wrong runtime) leaves the whole store, and so the counter,
    unchanged, and a success has appended exactly one [uploads] row for
    the client.  On [/upload-from-url] the answers 429, 400 "URL is
    required" and 500 wrong runtime leave the store unchanged; every
    other answer (a success, but also 400 invalid format, 400 too large
    and 500 failed upload) comes after admission and has appended
    exactly one row for the client. *)
Theorem rejections_and_the_counter (pf : Platform) (w : World) (c : Context) (s : Store)
    (r : Reply) :
  (result (run pf w (upload_from_body pf c) s) = inr r ->
     (status r <> 200%Z -> final (run pf w (upload_from_body pf c) s) = s)
     /\ (status r = 200%Z ->
           uploads (final (run pf w (upload_from_body pf c) s))
           = (uploads s ++ [upload_row (client_ip c) (today w)])%list))
  /\ (result (run pf w (upload_from_url pf c) s) = inr r ->
        (r = limit_exceeded \/ r = url_required \/ r = unsupported_runtime ->
           final (run pf w (upload_from_url pf c) s) = s)
        /\ (r <> limit_exceeded -> r <> url_required -> r <> unsupported_runtime ->
              uploads (final (run pf w (upload_from_url pf c) s))
              = (uploads s ++ [upload_row (client_ip c) (today w)])%list)).
Proof.
  split.
  - rewrite upload_from_body_run. cbn [after result final].
    destruct (negb _); [intros [= <-]; by split|].
    destruct (not_an_image _); [intros [= <-]; by split|].
    destruct (exceeds _ _); [intros [= <-]; by split|].
    cbv zeta. rewrite checkIPUploadCount_run.
    destruct (rejects w FCountUploads); [done|].
    destruct (negb (under_quota _ _ _ _)); [intros [= <-]; by split|].
    destruct (rejects w FInsertUpload); [done|].
    cbn [after result final].
    destruct (rejects w FRequestArrayBuffer); [done|].
    match goal with |- context [ingest pf w c ?b ?ct ?o ?s'] =>
      destruct (ingest_cases pf w c b ct o s') as (Hu & Hr) end.
    intros Hres. destruct (Hr _ Hres) as (url & ->). split; [done|].
    intros _. by rewrite Hu.
  - rewrite upload_from_url_run. cbn [after result final].
    destruct (negb _); [intros [= <-]; by split|].
    cbn [after result final].
    destruct (json_body (req c)) as [[|url|]|]; [intros [= <-]; by split| | |done].
    + destruct url as [|ch url]; [intros [= <-]; by split|].
      cbv zeta. rewrite checkIPUploadCount_run.
      destruct (rejects w FCountUploads); [done|].
      destruct (negb (under_quota _ _ _ _)); [intros [= <-]; by split|].
      destruct (rejects w FInsertUpload); [done|].
      cbn [after result final].
      destruct (Js.startsWith _ _).
      * cbn [result final]. intros [= <-]. split; [|done].
        intros [H|[H|H]]; discriminate H.
      * match goal with |- context [fetch_and_ingest pf w c ?u ?s'] =>
          destruct (fetch_and_ingest_cases pf w c u s') as (Hu & _) end.
        intros Hres. split; [|intros _ _ _; by rewrite Hu].
        intros Hr. exfalso. revert Hres. clear Hu.
        unfold fetch_and_ingest. cbn [after result].
        destruct (remote w _) as [response|]; [|intros [= <-]; by destruct Hr as [H|[H|H]]].
        destruct (not_an_image _); [intros [= <-]; by destruct Hr as [H|[H|H]]|].
        destruct (exceeds _ _); [intros [= <-]; by destruct Hr as [H|[H|H]]|].
        cbn [after result].
        destruct (response_body response) as [body|];
          [|intros [= <-]; by destruct Hr as [H|[H|H]]].
        match goal with |- context [ingest pf w c ?b ?ct ?o ?s'] =>
          destruct (ingest_cases pf w c b ct o s') as (_ & Hi);
          unfold caught; destruct (ingest pf w c b ct o s') as [[e|r'] s1 t1] end;
          cbn [result] in *.
        -- intros [= <-]. by destruct Hr as [H|[H|H]].
        -- intros [= <-]. destruct (Hi _ eq_refl) as (u & ->).
           by destruct Hr as [H|[H|H]].
    + cbv zeta. rewrite checkIPUploadCount_run.
      destruct (rejects w FCountUploads); [done|].
      destruct (negb (under_quota _ _ _ _)); [intros [= <-]; by split|].
      destruct (rejects w FInsertUpload); done.
Qed.

Lemma rejections_and_the_counter_witness :
  let pf := Sample.platform true in
  let w := Sample.world "k3j9x2a" Sample.no_fault in
  let body := Sample.context "10"
                (Sample.body_request (Some "text/html") (Some "120") []) in
  let url := Sample.context "10" (Sample.url_request "https://example.org/page.html") in
  final (run pf w (upload_from_body pf body) (Sample.used 3)) = Sample.used 3
  /\ uploads (final (run pf w (upload_from_url pf url) (Sample.used 3)))
     = (uploads (Sample.used 3) ++ [upload_row "203.0.113.7" "2024-05-01"])%list.
Proof.
  intros pf w body url. split.
  - apply (proj1 (rejections_and_the_counter pf w body (Sample.used 3) invalid_format));
      [vm_compute; reflexivity | discriminate].
  - apply (proj2 (rejections_and_the_counter pf w url (Sample.used 3) invalid_format));
      [vm_compute; reflexivity | discriminate ..].
Defined.

(** C3, as stated, fails on [/upload-from-url]: a request whose remote
    answer is not an image is rejected with 400 "Invalid image format"
    after [checkIPUploadCount] has recorded it, so the client's count
    of the day has grown from 0 to 1. *)
Lemma url_rejection_charges_client :
  let pf := Sample.platform true in
  let w := Sample.world "k3j9x2a" Sample.no_fault in
  let c := Sample.context "10" (Sample.url_request "https://example.org/page.html") in
  let o := run pf w (upload_from_url pf c) Sample.empty in
  result o = inr {| status := 400; body := ErrorBody "Invalid image format" |}
  /\ count_uploads "203.0.113.7" "2024-05-01" (uploads Sample.empty) = 0%Z
  /\ count_uploads "203.0.113.7" "2024-05-01" (uploads (final o)) = 1%Z.
Proof. vm_compute. done. Qed.

(** ** The short circuit of [/upload-from-url] *)

Lemma own_url_outcome (pf : Platform) (w : World) (c : Context) (s : Store) (url : string) :
  runtime_key w = "workerd" ->
  json_body (req c) = Some (UrlString url) ->
  url <> "" ->
  Js.startsWith url (R2_BASE_URL (env c)) = true ->
  rejects w FCountUploads = false ->
  rejects w FInsertUpload = false ->
  run pf w (upload_from_url pf c) s =
    if under_quota w c (client_ip c) (uploads s) then
      {| result := inr (success url);
         final := set_uploads s (uploads s ++ [upload_row (client_ip c) (today w)]);
         trace := [Ev RuntimeKey; Ev (RequestJson c); Ev Today;
                   Ev (CountUploads (client_ip c) (today w));
                   Ev (InsertUpload (client_ip c) (today w))] |}
    else
      {| result := inr limit_exceeded;
         final := s;
         trace := [Ev RuntimeKey; Ev (RequestJson c); Ev Today;
                   Ev (CountUploads (client_ip c) (today w))] |}.
Proof.
  intros Hrt Hjson Hne Hpre Hcount Hinsert.
  rewrite upload_from_url_run, Hrt, Hjson, checkIPUploadCount_run, Hcount, Hinsert.
  destruct url as [|ch url]; [done|].
  destruct (under_quota _ _ _ _); cbn [negb result final trace String.eqb Ascii.eqb Bool.eqb];
    [|reflexivity].
  rewrite Hpre. reflexivity.
Qed.

(** C5 (as amended). For a request to [/upload-from-url] whose url is
    not empty and starts with R2_BASE_URL, with the worker runtime and
    a D1 that answers: the route first runs the admission check; an
    admitted client gets its url back unchanged as a success, a client
    over its quota gets 429; in both cases there is no outbound fetch,
    no R2 write and no write to [images]. *)
Theorem own_url_short_circuit (pf : Platform) (w : World) (c : Context) (s : Store)
    (url : string) :
  runtime_key w = "workerd" ->
  json_body (req c) = Some (UrlString url) ->
  url <> "" ->
  Js.startsWith url (R2_BASE_URL (env c)) = true ->
  rejects w FCountUploads = false ->
  rejects w FInsertUpload = false ->
  let o := run pf w (upload_from_url pf c) s in
  result o = inr (if under_quota w c (client_ip c) (uploads s)
                  then {| status := 200; body := SuccessBody url |}
                  else {| status := 429; body := ErrorBody "Upload limit exceeded for this IP" |})
  /\ no_event is_fetch (trace o)
  /\ no_event is_put (trace o)
  /\ no_event is_insert_image (trace o)
  /\ r2 (final o) = r2 s
  /\ images (final o) = images s.
Proof.
  intros Hrt Hjson Hne Hpre Hcount Hinsert o. subst o.
  rewrite (own_url_outcome pf w c s url) by done.
  destruct (under_quota _ _ _ _); by split_and!.
Qed.

Lemma own_url_short_circuit_witness :
  let pf := Sample.platform true in
  let w := Sample.world "k3j9x2a" Sample.no_fault in
  let url := "https://img.example.com/uploads/20240430090000000-abcdefg.png" in
  let c := Sample.context "10" (Sample.url_request url) in
  result (run pf w (upload_from_url pf c) (Sample.used 3))
  = inr {| status := 200; body := SuccessBody url |}.
Proof.
  intros pf w url c.
  destruct (own_url_short_circuit pf w c (Sample.used 3) url) as [Hres _];
    [reflexivity | reflexivity | discriminate | reflexivity ..|].
  rewrite Hres. reflexivity.
Defined.

(** C5, as stated, fails: a client that has used its quota of the day
    and names one of the system's own URLs gets 429, not that URL. *)
Lemma own_url_over_quota_refused :
  let pf := Sample.platform true in
  let w := Sample.world "k3j9x2a" Sample.no_fault in
  let url := "https://img.example.com/uploads/20240430090000000-abcdefg.png" in
  let c := Sample.context "10" (Sample.url_request url) in
  Js.startsWith url (R2_BASE_URL (env c)) = true
  /\ result (run pf w (upload_from_url pf c) (Sample.used 10))
     = inr {| status := 429; body := ErrorBody "Upload limit exceeded for this IP" |}.
Proof. vm_compute. done. Qed.

(** C9. For a request to [/upload-from-url] whose url is not empty and
    starts with R2_BASE_URL, from a client the admission check lets in
    (worker runtime, D1 answering): the route answers success with that
    very string, whatever the store holds; all it has done is check the
    runtime, read the JSON body, read the clock, count the client's
    rows and insert one (so one unit of the quota is used): no lookup
    in [images], no fetch, no R2 write, no write to [images]. *)
Theorem base_prefix_echoed_unverified (pf : Platform) (w : World) (c : Context) (s : Store)
    (url : string) :
  runtime_key w = "workerd" ->
  json_body (req c) = Some (UrlString url) ->
  url <> "" ->
  Js.startsWith url (R2_BASE_URL (env c)) = true ->
  rejects w FCountUploads = false ->
  rejects w FInsertUpload = false ->
  under_quota w c (client_ip c) (uploads s) = true ->
  run pf w (upload_from_url pf c) s =
    {| result := inr {| status := 200; body := SuccessBody url |};
       final := {| uploads := uploads s ++ [upload_row (client_ip c) (today w)];
                   images := images s;
                   r2 := r2 s |};
       trace := [Ev RuntimeKey; Ev (RequestJson c); Ev Today;
                 Ev (CountUploads (client_ip c) (today w));
                 Ev (InsertUpload (client_ip c) (today w))] |}
  /\ count_uploads (client_ip c) (today w)
       (uploads (final (run pf w (upload_from_url pf c) s)))
     = (count_uploads (client_ip c) (today w) (uploads s) + 1)%Z.
Proof.
  intros Hrt Hjson Hne Hpre Hcount Hinsert Hquota.
  rewrite (own_url_outcome pf w c s url), Hquota by done. split; [reflexivity|].
  cbn [final uploads set_uploads]. by rewrite count_uploads_app, count_uploads_same.
Qed.

Lemma base_prefix_echoed_unverified_witness :
  let pf := Sample.platform true in
  let w := Sample.world "k3j9x2a" Sample.no_fault in
  let url := "https://img.example.com<<never stored>>" in
  let c := Sample.context "10" (Sample.url_request url) in
  select_image_url url (images Sample.empty) = None
  /\ r2 Sample.empty = ∅
  /\ result (run pf w (upload_from_url pf c) Sample.empty)
     = inr {| status := 200; body := SuccessBody url |}
  /\ count_uploads "203.0.113.7" "2024-05-01"
       (uploads (final (run pf w (upload_from_url pf c) Sample.empty))) = 1%Z.
Proof.
  intros pf w url c.
  destruct (base_prefix_echoed_unverified pf w c Sample.empty url) as [Hrun Hcount];
    [reflexivity | reflexivity | discriminate | reflexivity ..|].
  split_and!; [reflexivity | reflexivity | by rewrite Hrun | exact Hcount].
Defined.

(** ** Dedup: a miss stores and records, a hit returns the recorded URL *)

Lemma select_image_url_app_miss (md5 url : string) (original_url : option string)
    (rows : list ImageRow) :
  select_image_url md5 rows = None ->
  select_image_url md5 (rows ++ [image_row url md5 original_url]) = Some url.
Proof.
  unfold select_image_url. rewrite filter_app.
  destruct (filter _ rows) as [|row rest]; [|discriminate]. intros _.
  cbn [app]. by rewrite filter_cons_True.
Qed.

Lemma ingest_hit (pf : Platform) (w : World) (c : Context) (body : list Byte.byte)
    (contentType url : string) (original_url : option string) (s : Store) :
  rejects w FSelectImageUrl = false ->
  select_image_url (calculateMD5 body) (images s) = Some url ->
  url <> "" ->
  ingest pf w c body contentType original_url s =
    {| result := inr (success url); final := s;
       trace := [Ev (SelectImageUrl (calculateMD5 body))] |}.
Proof.
  intros Hsel Hhit Hne. unfold ingest. rewrite Hsel, Hhit.
  destruct url; [done|reflexivity].
Qed.

Lemma ingest_miss (pf : Platform) (w : World) (c : Context) (body : list Byte.byte)
    (contentType url : string) (original_url : option string) (s : Store) :
  rejects w FSelectImageUrl = false ->
  rejects w FR2Put = false ->
  rejects w FInsertImage = false ->
  select_image_url (calculateMD5 body) (images s) = None ->
  url_with_pathname pf (R2_BASE_URL (env c)) (object_key pf w c contentType) = Some url ->
  ingest pf w c body contentType original_url s =
    {| result := inr (success url);
       final := {| uploads := uploads s;
                   images := images s ++ [image_row url (calculateMD5 body) original_url];
                   r2 := <[object_key pf w c contentType := stored_object body contentType]> (r2 s) |};
       trace := [Ev (SelectImageUrl (calculateMD5 body)); Ev Timestamp; Ev RandomSuffix;
                 Ev (R2Put (object_key pf w c contentType) body contentType);
                 Ev (InsertImage url (calculateMD5 body) original_url)] |}.
Proof.
  intros Hsel Hput Hins Hmiss Hurl. unfold ingest, record_image.
  rewrite Hsel, Hmiss, Hput, Hurl. cbn [Js.truthy images set_r2].
  rewrite Hmiss, Hins, bool_decide_eq_false_2, andb_false_r by (by intros [? ?]).
  reflexivity.
Qed.

(** An admitted, well-formed request to [/upload-from-body] reaches the
    dedup check with one more row in [uploads]. *)
Lemma upload_from_body_admitted (pf : Platform) (w : World) (c : Context) (s : Store)
    (contentType : string) :
  runtime_key w = "workerd" ->
  content_type (req c) = Some contentType ->
  Js.startsWith contentType "image/" = true ->
  exceeds (content_length (req c)) (Js.parseInt (MAX_BODY_SIZE (env c))) = false ->
  rejects w FCountUploads = false ->
  rejects w FInsertUpload = false ->
  rejects w FRequestArrayBuffer = false ->
  under_quota w c (client_ip c) (uploads s) = true ->
  run pf w (upload_from_body pf c) s =
    after [Ev RuntimeKey; Ev Today; Ev (CountUploads (client_ip c) (today w));
           Ev (InsertUpload (client_ip c) (today w)); Ev (RequestArrayBuffer c)]
      (ingest pf w c (raw_body (req c)) contentType None
         (set_uploads s (uploads s ++ [upload_row (client_ip c) (today w)]))).
Proof.
  intros Hrt Hct Himg Hsize Hcount Hinsert Hread Hquota.
  rewrite upload_from_body_run, Hrt, Hct, (not_an_image_image _ Himg), Hsize.
  rewrite checkIPUploadCount_run, Hcount, Hinsert, Hquota.
  cbn [negb String.eqb Ascii.eqb Bool.eqb result final trace]. rewrite Hread.
  by rewrite after_after.
Qed.

Section Pair.

Variable pf : Platform.
Variables w1 w2 : World.
Variables c1 c2 : Context.
Variable s : Store.
Variables contentType1 contentType2 url : string.

Local Abbreviation bytes := (raw_body (req c1)).
Local Abbreviation md5 := (calculateMD5 (raw_body (req c1))).
Local Abbreviation key := (object_key pf w1 c1 contentType1).
Local Abbreviation row1 := (upload_row (client_ip c1) (today w1)).
Local Abbreviation row2 := (upload_row (client_ip c2) (today w2)).

(** Both requests come to the worker with an image content type and
    no oversized declared length, and carry the same bytes. *)
Hypothesis runtime1 : runtime_key w1 = "workerd".
Hypothesis runtime2 : runtime_key w2 = "workerd".
Hypothesis type1 : content_type (req c1) = Some contentType1.
Hypothesis type2 : content_type (req c2) = Some contentType2.
Hypothesis image1 : Js.startsWith contentType1 "image/" = true.
Hypothesis image2 : Js.startsWith contentType2 "image/" = true.
Hypothesis size1 : exceeds (content_length (req c1)) (Js.parseInt (MAX_BODY_SIZE (env c1))) = false.
Hypothesis size2 : exceeds (content_length (req c2)) (Js.parseInt (MAX_BODY_SIZE (env c2))) = false.
Hypothesis same_bytes : raw_body (req c2) = raw_body (req c1).

(** The stores answer, and both clients are under their quota when
    their request arrives. *)
Hypothesis healthy1 : forall f, rejects w1 f = false.
Hypothesis healthy2 : forall f, rejects w2 f = false.
Hypothesis quota1 : under_quota w1 c1 (client_ip c1) (uploads s) = true.
Hypothesis quota2 : under_quota w2 c2 (client_ip c2) (uploads s ++ [row1]) = true.

(** The fingerprint is not in the index yet, and the URL of the new
    object is [url]. *)
Hypothesis fresh : select_image_url md5 (images s) = None.
Hypothesis new_url : url_with_pathname pf (R2_BASE_URL (env c1)) key = Some url.
Hypothesis url_nonempty : url <> "".

Local Abbreviation after_first :=
  {| uploads := uploads s ++ [row1];
     images := images s ++ [image_row url md5 None];
     r2 := <[key := stored_object bytes contentType1]> (r2 s) |}.

Local Abbreviation after_second :=
  {| uploads := (uploads s ++ [row1]) ++ [row2];
     images := images s ++ [image_row url md5 None];
     r2 := <[key := stored_object bytes contentType1]> (r2 s) |}.

Lemma first_upload_stores :
  run pf w1 (upload_from_body pf c1) s =
    {| result := inr (success url);
       final := after_first;
       trace := [Ev RuntimeKey; Ev Today; Ev (CountUploads (client_ip c1) (today w1));
                 Ev (InsertUpload (client_ip c1) (today w1)); Ev (RequestArrayBuffer c1);
                 Ev (SelectImageUrl md5); Ev Timestamp; Ev RandomSuffix;
                 Ev (R2Put key bytes contentType1); Ev (InsertImage url md5 None)] |}.
Proof.
  rewrite (upload_from_body_admitted pf w1 c1 s contentType1) by done.
  rewrite (ingest_miss pf w1 c1 _ contentType1 url) by done.
  reflexivity.
Qed.

Lemma second_upload_hits :
  run pf w2 (upload_from_body pf c2) after_first =
    {| result := inr (success url);
       final := after_second;
       trace := [Ev RuntimeKey; Ev Today; Ev (CountUploads (client_ip c2) (today w2));
                 Ev (InsertUpload (client_ip c2) (today w2)); Ev (RequestArrayBuffer c2);
                 Ev (SelectImageUrl md5)] |}.
Proof.
  rewrite (upload_from_body_admitted pf w2 c2 after_first contentType2) by done.
  rewrite same_bytes.
  rewrite (ingest_hit pf w2 c2 _ contentType2 url); [reflexivity|done| |done].
  cbn [images set_uploads]. by apply select_image_url_app_miss.
Qed.

(** C1. Two requests to [/upload-from-body] with the same bytes, one
    after the other, both well-formed and admitted, on stores that
    answer, the fingerprint not yet indexed: the first puts one object
    in R2, appends one row to [images] and answers success with the new
    URL, which a lookup of the fingerprint then returns; the second
    computes the same MD5, looks it up, and answers success with the
    same URL, leaving R2 and [images] as they were: its trace has no
    R2 put and no insert into [images]. *)
Theorem identical_bodies_dedup :
  let o1 := run pf w1 (upload_from_body pf c1) s in
  let o2 := run pf w2 (upload_from_body pf c2) (final o1) in
  result o1 = inr {| status := 200; body := SuccessBody url |}
  /\ r2 (final o1) = <[key := stored_object bytes contentType1]> (r2 s)
  /\ images (final o1) = images s ++ [image_row url md5 None]
  /\ select_image_url md5 (images (final o1)) = Some url
  /\ result o2 = inr {| status := 200; body := SuccessBody url |}
  /\ r2 (final o2) = r2 (final o1)
  /\ images (final o2) = images (final o1)
  /\ trace o2 = [Ev RuntimeKey; Ev Today; Ev (CountUploads (client_ip c2) (today w2));
                 Ev (InsertUpload (client_ip c2) (today w2)); Ev (RequestArrayBuffer c2);
                 Ev (SelectImageUrl (calculateMD5 (raw_body (req c2))))]
  /\ no_event is_put (trace o2)
  /\ no_event is_insert_image (trace o2).
Proof.
  cbv zeta. rewrite first_upload_stores. cbn [result final].
  rewrite second_upload_hits. cbn [result final trace images r2].
  rewrite same_bytes. split_and!; try done.
  by apply select_image_url_app_miss.
Qed.

(** C4 (as amended). When the two requests with the same bytes are
    served one after the other (a schedule that lets the first one
    finish before the second one starts), both answer success with the
    same URL, and the store holds exactly one more object and one more
    [images] row than before; and every serial schedule that is long
    enough does let both requests finish. *)
Theorem serial_identical_uploads_store_once :
  (forall (n1 n2 : nat) (q1 q2 : Prog Reply) (s' : Store) (reply1 reply2 : Js.exn + Reply),
     interleave pf w1 w2 (replicate n1 true ++ replicate n2 false)
       (upload_from_body pf c1) (upload_from_body pf c2) s = (q1, q2, s') ->
     finished q1 = Some reply1 ->
     finished q2 = Some reply2 ->
     reply1 = inr {| status := 200; body := SuccessBody url |}
     /\ reply2 = inr {| status := 200; body := SuccessBody url |}
     /\ r2 s' = <[key := stored_object bytes contentType1]> (r2 s)
     /\ images s' = images s ++ [image_row url md5 None]
     /\ (r2 s !! key = None -> size (r2 s') = S (size (r2 s))))
  /\ (exists n1 n2 : nat, forall m1 m2 : nat, (n1 <= m1)%nat -> (n2 <= m2)%nat ->
        let e := interleave pf w1 w2 (replicate m1 true ++ replicate m2 false)
                   (upload_from_body pf c1) (upload_from_body pf c2) s in
        is_Some (finished e.1.1) /\ is_Some (finished e.1.2)).
Proof.
  split.
  - intros n1 n2 q1 q2 s' reply1 reply2.
    rewrite interleave_serial. cbv zeta.
    destruct (steps pf n1 w1 (upload_from_body pf c1) s) as [p1 s1] eqn:H1. cbn [fst snd].
    destruct (steps pf n2 w2 (upload_from_body pf c2) s1) as [p2 s2] eqn:H2. cbn [fst snd].
    intros [= <- <- <-] Hq1 Hq2.
    destruct (steps_finished pf w1 n1 _ _ _ _ _ H1 Hq1) as [Hr1 Hs1].
    rewrite first_upload_stores in Hr1, Hs1. cbn [result final] in Hr1, Hs1. subst s1 reply1.
    destruct (steps_finished pf w2 n2 _ _ _ _ _ H2 Hq2) as [Hr2 Hs2].
    rewrite second_upload_hits in Hr2, Hs2. cbn [result final] in Hr2, Hs2. subst s2 reply2.
    split_and!; try done.
    intros Hfresh. cbn. by rewrite map_size_insert_None.
  - destruct (run_steps pf w1 (upload_from_body pf c1) s) as (n1 & q1 & H1 & Hq1).
    rewrite first_upload_stores in H1, Hq1. cbn [result final] in H1, Hq1.
    destruct (run_steps pf w2 (upload_from_body pf c2) after_first) as (n2 & q2 & H2 & Hq2).
    exists n1, n2. intros m1 m2 Hm1 Hm2. cbv zeta.
    rewrite interleave_serial. cbv zeta.
    rewrite (steps_more pf w1 n1 m1 _ _ _ _ H1) by (by rewrite ?Hq1).
    cbn [fst snd].
    rewrite (steps_more pf w2 n2 m2 _ _ _ _ H2) by (by rewrite ?Hq2).
    cbn [fst snd]. by rewrite Hq1, Hq2.
Qed.

End Pair.

Lemma identical_bodies_dedup_witness :
  let pf := Sample.platform true in
  let w1 := Sample.world "k3j9x2a" Sample.no_fault in
  let w2 := Sample.world "p0q8r7s" Sample.no_fault in
  let c := Sample.context "10" (Sample.body_request (Some "image/jpeg") (Some "4") Sample.jpeg) in
  let url := "https://img.example.com/uploads/20240501120000000-k3j9x2a.jpg" in
  let o1 := run pf w1 (upload_from_body pf c) Sample.empty in
  let o2 := run pf w2 (upload_from_body pf c) (final o1) in
  result o1 = inr {| status := 200; body := SuccessBody url |}
  /\ size (r2 (final o1)) = 1%nat
  /\ result o2 = inr {| status := 200; body := SuccessBody url |}
  /\ r2 (final o2) = r2 (final o1)
  /\ images (final o2) = images (final o1).
Proof.
  intros pf w1 w2 c url.
  destruct (identical_bodies_dedup pf w1 w2 c c Sample.empty "image/jpeg" "image/jpeg" url)
    as (H1 & Hput & _ & _ & H2 & Hr2 & Himages & _); try reflexivity; [discriminate|].
  cbv zeta. split_and!; [exact H1 | | exact H2 | exact Hr2 | exact Himages].
  rewrite Hput. reflexivity.
Defined.

Lemma serial_identical_uploads_store_once_witness :
  let pf := Sample.platform true in
  let w1 := Sample.world "k3j9x2a" Sample.no_fault in
  let w2 := Sample.world "p0q8r7s" Sample.no_fault in
  let c := Sample.context "10" (Sample.body_request (Some "image/jpeg") (Some "4") Sample.jpeg) in
  let url := "https://img.example.com/uploads/20240501120000000-k3j9x2a.jpg" in
  let end_state := interleave pf w1 w2 (replicate 10 true ++ replicate 6 false)
                     (upload_from_body pf c) (upload_from_body pf c) Sample.empty in
  finished end_state.1.1 = Some (inr {| status := 200; body := SuccessBody url |})
  /\ finished end_state.1.2 = Some (inr {| status := 200; body := SuccessBody url |})
  /\ size (r2 end_state.2) = 1%nat.
Proof.
  intros pf w1 w2 c url end_state.
  assert (Hq1 : finished end_state.1.1 = Some (inr {| status := 200; body := SuccessBody url |}))
    by (vm_compute; reflexivity).
  assert (Hq2 : finished end_state.1.2 = Some (inr {| status := 200; body := SuccessBody url |}))
    by (vm_compute; reflexivity).
  assert (Hend : interleave pf w1 w2 (replicate 10 true ++ replicate 6 false)
                   (upload_from_body pf c) (upload_from_body pf c) Sample.empty
                 = (end_state.1.1, end_state.1.2, end_state.2))
    by (subst end_state; by destruct (interleave _ _ _ _ _ _ _) as [[? ?] ?]).
  destruct (proj1 (serial_identical_uploads_store_once pf w1 w2 c c Sample.empty
              "image/jpeg" "image/jpeg" url eq_refl eq_refl eq_refl eq_refl eq_refl eq_refl
              eq_refl eq_refl eq_refl (fun _ => eq_refl) (fun _ => eq_refl) eq_refl eq_refl
              eq_refl eq_refl ltac:(discriminate)) 10%nat 6%nat _ _ _ _ _ Hend Hq1 Hq2)
    as (_ & _ & _ & _ & Hsize).
  split_and!; [exact Hq1 | exact Hq2 |].
  rewrite Hsize; reflexivity.
Defined.

(** C4, as stated, fails: each await is a step of its own, and two
    requests with the same bytes can interleave so that both count the
    client's rows before either inserts one, and both look the
    fingerprint up before either records it.  With a quota of 1 both
    are admitted; both miss; both put an object.  Without a UNIQUE
    constraint on [images.md5] both answer success, with two different
    URLs; with the constraint the second insert is refused and the
    second request throws.  Either way R2 holds two objects. *)
Lemma interleaved_identical_uploads_store_twice :
  let w1 := Sample.world "k3j9x2a" Sample.no_fault in
  let w2 := Sample.world "p0q8r7s" Sample.no_fault in
  let c := Sample.context "1" (Sample.body_request (Some "image/jpeg") (Some "4") Sample.jpeg) in
  let schedule := [true; true; true; false; false; false;
                   true; true; true; false; false; false;
                   true; true; true; true; false; false; false; false] in
  let racing (unique : bool) :=
    interleave (Sample.platform unique) w1 w2 schedule
      (upload_from_body (Sample.platform unique) c)
      (upload_from_body (Sample.platform unique) c) Sample.empty in
  (finished (racing false).1.1
   = Some (inr (success "https://img.example.com/uploads/20240501120000000-k3j9x2a.jpg"))
   /\ finished (racing false).1.2
      = Some (inr (success "https://img.example.com/uploads/20240501120000000-p0q8r7s.jpg"))
   /\ size (r2 (racing false).2) = 2%nat
   /\ length (images (racing false).2) = 2%nat
   /\ count_uploads "203.0.113.7" "2024-05-01" (uploads (racing false).2) = 2%Z)
  /\ (finished (racing true).1.1
      = Some (inr (success "https://img.example.com/uploads/20240501120000000-k3j9x2a.jpg"))
      /\ finished (racing true).1.2 = Some (inl Js.Rejected)
      /\ size (r2 (racing true).2) = 2%nat
      /\ count_uploads "203.0.113.7" "2024-05-01" (uploads (racing true).2) = 2%Z).
Proof. vm_compute. done. Qed.

(** ** Failures of the store and of the index write *)

(** C6 at its failing input. A well-formed, admitted request to
    [/upload-from-body] whose fingerprint is not indexed, with an R2
    put or an insert into [images] that rejects: the route has no
    [try], so it answers nothing and the rejection leaves the handler
    as an exception.  When it is the insert that rejects, the object
    is already in R2 and [images] has no row for it. *)
Theorem store_failure_escapes_body_route (pf : Platform) (w : World) (c : Context) (s : Store)
    (contentType url : string) :
  runtime_key w = "workerd" ->
  content_type (req c) = Some contentType ->
  Js.startsWith contentType "image/" = true ->
  exceeds (content_length (req c)) (Js.parseInt (MAX_BODY_SIZE (env c))) = false ->
  rejects w FCountUploads = false ->
  rejects w FInsertUpload = false ->
  rejects w FRequestArrayBuffer = false ->
  rejects w FSelectImageUrl = false ->
  under_quota w c (client_ip c) (uploads s) = true ->
  select_image_url (calculateMD5 (raw_body (req c))) (images s) = None ->
  url_with_pathname pf (R2_BASE_URL (env c)) (object_key pf w c contentType) = Some url ->
  let o := run pf w (upload_from_body pf c) s in
  (rejects w FR2Put = true ->
     result o = inl Js.Rejected /\ r2 (final o) = r2 s /\ images (final o) = images s)
  /\ (rejects w FR2Put = false -> rejects w FInsertImage = true ->
        result o = inl Js.Rejected
        /\ r2 (final o)
           = <[object_key pf w c contentType := stored_object (raw_body (req c)) contentType]> (r2 s)
        /\ images (final o) = images s).
Proof.
  intros Hrt Hct Himg Hsize Hcount Hinsert Hread Hsel Hquota Hmiss Hurl o. subst o.
  rewrite (upload_from_body_admitted pf w c s contentType) by done.
  unfold ingest, record_image. rewrite Hsel. cbn [images set_uploads set_r2 r2].
  rewrite Hmiss, Hurl. cbn [Js.truthy].
  split.
  - intros ->. by split_and!.
  - intros -> ->. rewrite bool_decide_eq_false_2, andb_false_r by (by intros [? ?]).
    by split_and!.
Qed.

Lemma store_failure_escapes_body_route_witness :
  let pf := Sample.platform true in
  let w := Sample.world "k3j9x2a" (Sample.fault FInsertImage) in
  let c := Sample.context "10" (Sample.body_request (Some "image/jpeg") (Some "4") Sample.jpeg) in
  let o := run pf w (upload_from_body pf c) Sample.empty in
  result o = inl Js.Rejected
  /\ size (r2 (final o)) = 1%nat
  /\ images (final o) = [].
Proof.
  intros pf w c o.
  destruct (proj2 (store_failure_escapes_body_route pf w c Sample.empty "image/jpeg"
              "https://img.example.com/uploads/20240501120000000-k3j9x2a.jpg"
              eq_refl eq_refl eq_refl eq_refl eq_refl eq_refl eq_refl eq_refl eq_refl
              eq_refl eq_refl) eq_refl eq_refl) as (Hres & Hr2 & Himages).
  subst o. split_and!; [exact Hres | rewrite Hr2; reflexivity | exact Himages].
Defined.

(** The sibling route catches the same failures: on [/upload-from-url]
    a rejected put or insert is answered with 500
    [{error: "Failed to upload image"}]. *)
Lemma store_failure_caught_by_url_route (pf : Platform) (w : World) (c : Context) (s : Store)
    (url : string) :
  exists r, result (fetch_and_ingest pf w c url s) = inr r.
Proof.
  destruct (fetch_and_ingest_cases pf w c url s) as [_ Hsome].
  destruct (result (fetch_and_ingest pf w c url s)) as [e|r]; [by destruct Hsome|eauto].
Qed.

Example store_failure_url_route :
  let pf := Sample.platform true in
  let w := Sample.world "k3j9x2a" (Sample.fault FInsertImage) in
  let c := Sample.context "10" (Sample.url_request "https://example.org/cat.jpg") in
  result (run pf w (upload_from_url pf c) Sample.empty)
  = inr {| status := 500; body := ErrorBody "Failed to upload image" |}.
Proof. vm_compute. reflexivity. Qed.

(** ** The size ceiling needs a declared length *)

Lemma exceeds_undeclared (contentLength : option string) (maxBodySize : Js.number) :
  undeclared contentLength -> exceeds contentLength maxBodySize = false.
Proof.
  unfold exceeds, undeclared. destruct contentLength as [s|]; [|done].
  intros H. cbn [default from_option id]. rewrite H. apply andb_false_r.
Qed.

(** An admitted request to [/upload-from-url] whose url is not the
    system's own reaches the [try] block with one more row in [uploads]. *)
Lemma upload_from_url_admitted (pf : Platform) (w : World) (c : Context) (s : Store)
    (url : string) :
  runtime_key w = "workerd" ->
  json_body (req c) = Some (UrlString url) ->
  url <> "" ->
  Js.startsWith url (R2_BASE_URL (env c)) = false ->
  rejects w FCountUploads = false ->
  rejects w FInsertUpload = false ->
  under_quota w c (client_ip c) (uploads s) = true ->
  run pf w (upload_from_url pf c) s =
    after [Ev RuntimeKey; Ev (RequestJson c); Ev Today;
           Ev (CountUploads (client_ip c) (today w));
           Ev (InsertUpload (client_ip c) (today w))]
      (fetch_and_ingest pf w c url
         (set_uploads s (uploads s ++ [upload_row (client_ip c) (today w)]))).
Proof.
  intros Hrt Hjson Hne Hpre Hcount Hinsert Hquota.
  rewrite upload_from_url_run, Hrt, Hjson, checkIPUploadCount_run, Hcount, Hinsert, Hquota.
  destruct url as [|ch url]; [done|].
  cbn [negb String.eqb Ascii.eqb Bool.eqb result final trace]. rewrite Hpre.
  by rewrite !after_after.
Qed.

(** C10. The size check of both routes is
    [contentLength && parseInt(contentLength) > MAX_BODY_SIZE]: with
    the content-length header absent, empty or not a number it is
    false whatever MAX_BODY_SIZE is, so neither route answers 400
    "Image size exceeds the limit"; and when the request is otherwise
    served (worker runtime, image content type, admitted client, stores
    answering, fingerprint not indexed) the whole body, of whatever
    length, is put in R2 and the route answers success. *)
Theorem size_check_needs_content_length (pf : Platform) (w : World) (c : Context) (s : Store) :
  (undeclared (content_length (req c)) ->
     exceeds (content_length (req c)) (Js.parseInt (MAX_BODY_SIZE (env c))) = false
     /\ result (run pf w (upload_from_body pf c) s)
        <> inr {| status := 400; body := ErrorBody "Image size exceeds the limit" |}
     /\ (forall contentType url,
           runtime_key w = "workerd" ->
           content_type (req c) = Some contentType ->
           Js.startsWith contentType "image/" = true ->
           (forall f, rejects w f = false) ->
           under_quota w c (client_ip c) (uploads s) = true ->
           select_image_url (calculateMD5 (raw_body (req c))) (images s) = None ->
           url_with_pathname pf (R2_BASE_URL (env c)) (object_key pf w c contentType) = Some url ->
           result (run pf w (upload_from_body pf c) s)
           = inr {| status := 200; body := SuccessBody url |}
           /\ r2 (final (run pf w (upload_from_body pf c) s))
              = <[object_key pf w c contentType
                    := stored_object (raw_body (req c)) contentType]> (r2 s)))
  /\ (forall source response,
        json_body (req c) = Some (UrlString source) ->
        remote w source = Some response ->
        undeclared (response_content_length response) ->
        exceeds (response_content_length response) (Js.parseInt (MAX_BODY_SIZE (env c))) = false
        /\ result (run pf w (upload_from_url pf c) s)
           <> inr {| status := 400; body := ErrorBody "Image size exceeds the limit" |}
        /\ (forall contentType bytes url,
              runtime_key w = "workerd" ->
              source <> "" ->
              Js.startsWith source (R2_BASE_URL (env c)) = false ->
              response_content_type response = Some contentType ->
              Js.startsWith contentType "image/" = true ->
              response_body response = Some bytes ->
              (forall f, rejects w f = false) ->
              under_quota w c (client_ip c) (uploads s) = true ->
              select_image_url (calculateMD5 bytes) (images s) = None ->
              url_with_pathname pf (R2_BASE_URL (env c)) (object_key pf w c contentType)
              = Some url ->
              result (run pf w (upload_from_url pf c) s)
              = inr {| status := 200; body := SuccessBody url |}
              /\ r2 (final (run pf w (upload_from_url pf c) s))
                 = <[object_key pf w c contentType := stored_object bytes contentType]> (r2 s))).
Proof.
  split.
  - intros Hcl. pose proof (exceeds_undeclared _ (Js.parseInt (MAX_BODY_SIZE (env c))) Hcl) as Hex.
    split_and!; [exact Hex | |].
    + rewrite upload_from_body_run, Hex. cbn [after result].
      destruct (negb _); [done|].
      destruct (not_an_image _); [done|].
      cbv zeta. rewrite checkIPUploadCount_run.
      destruct (rejects w FCountUploads); [done|].
      destruct (negb (under_quota _ _ _ _)); [done|].
      destruct (rejects w FInsertUpload); [done|].
      cbn [after result final]. destruct (rejects w FRequestArrayBuffer); [done|].
      match goal with |- context [ingest pf w c ?b ?ct ?o ?s'] =>
        destruct (ingest_cases pf w c b ct o s') as (_ & Hr) end.
      intros Hres. destruct (Hr _ Hres) as (u & [=]).
    + intros contentType url Hrt Hct Himg Hok Hquota Hmiss Hurl.
      rewrite (upload_from_body_admitted pf w c s contentType) by done.
      rewrite (ingest_miss pf w c _ contentType url) by done. done.
  - intros source response Hjson Hremote Hcl.
    pose proof (exceeds_undeclared _ (Js.parseInt (MAX_BODY_SIZE (env c))) Hcl) as Hex.
    split_and!; [exact Hex | |].
    + rewrite upload_from_url_run, Hjson. cbn [after result].
      destruct (negb _); [done|]. cbn [after result].
      destruct source as [|ch source]; [done|].
      cbv zeta. rewrite checkIPUploadCount_run.
      destruct (rejects w FCountUploads); [done|].
      destruct (negb (under_quota _ _ _ _)); [done|].
      destruct (rejects w FInsertUpload); [done|].
      cbn [after result final]. destruct (Js.startsWith _ _); [done|].
      unfold fetch_and_ingest. rewrite Hremote, Hex. cbn [after result].
      destruct (not_an_image _); [done|]. cbn [after result].
      destruct (response_body response) as [bytes|]; [|done].
      match goal with |- context [ingest pf w c ?b ?ct ?o ?s'] =>
        destruct (ingest_cases pf w c b ct o s') as (_ & Hr);
        unfold caught; destruct (ingest pf w c b ct o s') as [[e|r] s1 t1] end;
        cbn [result] in *; [done|].
      destruct (Hr _ eq_refl) as (u & ->). done.
    + intros contentType bytes url Hrt Hne Hpre Hct Himg Hbody Hok Hquota Hmiss Hurl.
      rewrite (upload_from_url_admitted pf w c s source) by done.
      unfold fetch_and_ingest.
      rewrite Hremote, Hex, Hct, (not_an_image_image _ Himg), Hbody.
      change (default "" (Some contentType)) with contentType.
      rewrite (ingest_miss pf w c _ contentType url) by done. done.
Qed.

Lemma size_check_needs_content_length_witness :
  let pf := Sample.platform true in
  let w := Sample.world "k3j9x2a" Sample.no_fault in
  let c := Sample.tight_context (Sample.body_request (Some "image/jpeg") None Sample.jpeg) in
  let o := run pf w (upload_from_body pf c) Sample.empty in
  Js.parseInt (MAX_BODY_SIZE (env c)) = Some 3%Z
  /\ length (raw_body (req c)) = 4%nat
  /\ result o = inr {| status := 200;
                       body := SuccessBody
                                 "https://img.example.com/uploads/20240501120000000-k3j9x2a.jpg" |}
  /\ r2 (final o) !! "uploads/20240501120000000-k3j9x2a.jpg"
     = Some (stored_object Sample.jpeg "image/jpeg").
Proof.
  intros pf w c o.
  destruct (proj1 (size_check_needs_content_length pf w c Sample.empty) I)
    as (_ & _ & Hstored).
  destruct (Hstored "image/jpeg" "https://img.example.com/uploads/20240501120000000-k3j9x2a.jpg"
              eq_refl eq_refl eq_refl (fun _ => eq_refl) eq_refl eq_refl eq_refl)
    as (Hres & Hr2).
  subst o. split_and!; [reflexivity | reflexivity | exact Hres |].
  rewrite Hr2. reflexivity.
Defined.

(** * Further properties of the routes *)

(** ** The gates before admission *)

(** X1. Off the worker runtime both routes answer 500 [{error: "This
    function is only available in Cloudflare Workers"}] and do nothing
    else: the store is unchanged and the runtime check is the only
    operation, whatever the request holds. *)
Theorem other_runtime_refused (pf : Platform) (w : World) (c : Context) (s : Store) :
  runtime_key w <> "workerd" ->
  let refused :=
    {| result := inr {| status := 500;
                        body := ErrorBody "This function is only available in Cloudflare Workers" |};
       final := s;
       trace := [Ev RuntimeKey] |} in
  run pf w (upload_from_url pf c) s = refused
  /\ run pf w (upload_from_body pf c) s = refused.
Proof.
  intros Hrt. apply String.eqb_neq in Hrt. cbv zeta.
  rewrite upload_from_url_run, upload_from_body_run, Hrt. done.
Qed.

Lemma other_runtime_refused_witness :
  let pf := Sample.platform true in
  let w := {| runtime_key := "node"; today := "2024-05-01"; timestamp := "20240501120000000";
              random_suffix := "k3j9x2a"; remote := Sample.web; rejects := Sample.no_fault |} in
  let c := Sample.context "10" (Sample.body_request (Some "image/jpeg") (Some "4") Sample.jpeg) in
  result (run pf w (upload_from_body pf c) Sample.empty)
  = inr {| status := 500;
           body := ErrorBody "This function is only available in Cloudflare Workers" |}.
Proof.
  intros pf w c.
  destruct (other_runtime_refused pf w c Sample.empty) as [_ Hbody]; [discriminate|].
  cbv zeta in Hbody. by rewrite Hbody.
Defined.

(** X2. [/upload-from-url] with a JSON body whose [url] is missing,
    falsy or the empty string answers 400 [{error: "URL is required"}]
    before the admission check: the store is unchanged (the client is
    not charged) and no D1 statement is started. *)
Theorem missing_url_not_charged (pf : Platform) (w : World) (c : Context) (s : Store) :
  runtime_key w = "workerd" ->
  json_body (req c) = Some UrlFalsy \/ json_body (req c) = Some (UrlString "") ->
  run pf w (upload_from_url pf c) s =
    {| result := inr {| status := 400; body := ErrorBody "URL is required" |};
       final := s;
       trace := [Ev RuntimeKey; Ev (RequestJson c)] |}.
Proof.
  intros Hrt Hjson. rewrite upload_from_url_run, Hrt.
  by destruct Hjson as [-> | ->].
Qed.

Lemma missing_url_not_charged_witness :
  let pf := Sample.platform true in
  let w := Sample.world "k3j9x2a" Sample.no_fault in
  let c := Sample.context "10" (Sample.url_request "") in
  final (run pf w (upload_from_url pf c) (Sample.used 3)) = Sample.used 3.
Proof.
  intros pf w c.
  rewrite (missing_url_not_charged pf w c (Sample.used 3) eq_refl (or_intror eq_refl)).
  reflexivity.
Defined.

(** X3. When [/upload-from-url] throws.  On the worker runtime the
    route leaves its handler with an exception exactly when the body
    is not JSON, or a D1 statement of the admission check rejects, or
    an admitted request carries a truthy [url] that is not a string
    ([url.startsWith] is not a function); in the last case the client
    has already been charged.  Every failure of the fetch, of the
    store or of the index write is answered instead. *)
Theorem url_route_throws_iff (pf : Platform) (w : World) (c : Context) (s : Store) :
  runtime_key w = "workerd" ->
  let o := run pf w (upload_from_url pf c) s in
  ((exists e, result o = inl e) <->
     json_body (req c) = None
     \/ ((exists url, json_body (req c) = Some (UrlString url) /\ url <> "")
          \/ json_body (req c) = Some UrlOther)
        /\ (rejects w FCountUploads = true
            \/ (under_quota w c (client_ip c) (uploads s) = true
                /\ (rejects w FInsertUpload = true \/ json_body (req c) = Some UrlOther))))
  /\ (json_body (req c) = Some UrlOther ->
      rejects w FCountUploads = false -> rejects w FInsertUpload = false ->
      under_quota w c (client_ip c) (uploads s) = true ->
      result o = inl Js.TypeError
      /\ uploads (final o) = uploads s ++ [upload_row (client_ip c) (today w)]).
Proof.
  intros Hrt o. subst o. rewrite upload_from_url_run, Hrt.
  cbn [negb String.eqb Ascii.eqb Bool.eqb after result final].
  destruct (json_body (req c)) as [[|url|]|] eqn:Hjson; cbn [result final].
  - split; [|done]. split; [intros [e [=]]|]. intros [[=]|[[(u & [=] & _)|[=]] _]].
  - split; [|done]. destruct url as [|ch url].
    + cbn [result]. split; [intros [e [=]]|].
      intros [[=]|[[(u & [= <-] & Hne)|[=]] _]]. done.
    + cbv zeta. rewrite checkIPUploadCount_run.
      destruct (rejects w FCountUploads) eqn:Hc; cbn [result].
      { split; [|by eauto]. intros _. right. split; [|by left]. left. eauto. }
      destruct (under_quota _ _ _ _) eqn:Hq; cbn [negb result].
      2:{ split; [intros [e [=]]|]. intros [[=]|[_ [[=]|[[=] _]]]]. }
      destruct (rejects w FInsertUpload) eqn:Hi; cbn [result after final].
      { split; [|by eauto]. intros _. right. split; [left; eauto|]. right. eauto. }
      split.
      * intros [e He]. exfalso. revert He.
        destruct (Js.startsWith _ _); [done|].
        destruct (store_failure_caught_by_url_route pf w c
                    (set_uploads s (uploads s ++ [upload_row (client_ip c) (today w)]))
                    (String ch url)) as [r ->]. done.
      * intros [[=]|[_ [[=]|[_ [[=]|[=]]]]]].
  - cbv zeta. rewrite checkIPUploadCount_run.
    destruct (rejects w FCountUploads) eqn:Hc; cbn [result].
    { split; [|done]. split; [|by eauto]. intros _. right. split; [by right|by left]. }
    destruct (under_quota _ _ _ _) eqn:Hq; cbn [negb result].
    2:{ split; [|done]. split; [intros [e [=]]|]. intros [[=]|[_ [[=]|[[=] _]]]]. }
    destruct (rejects w FInsertUpload) eqn:Hi; cbn [result after final].
    { split; [|done]. split; [|by eauto]. intros _. right. split; [by right|]. right. eauto. }
    split; [|done]. split; [|by eauto]. intros _. right. split; [by right|]. right. eauto.
  - split; [|done]. split; [|by eauto]. intros _. by left.
Qed.

Lemma url_route_throws_iff_witness :
  let pf := Sample.platform true in
  let w := Sample.world "k3j9x2a" Sample.no_fault in
  let c := Sample.context "10"
             {| content_type := Some "application/json"; content_length := None;
                cf_connecting_ip := Some "203.0.113.7"; json_body := Some UrlOther;
                raw_body := [] |} in
  result (run pf w (upload_from_url pf c) Sample.empty) = inl Js.TypeError
  /\ uploads (final (run pf w (upload_from_url pf c) Sample.empty))
     = [upload_row "203.0.113.7" "2024-05-01"].
Proof.
  intros pf w c.
  exact (proj2 (url_route_throws_iff pf w c Sample.empty eq_refl) eq_refl eq_refl eq_refl eq_refl).
Defined.

(** ** More on admission *)

(** X4. A request without a CF-Connecting-IP header (or with an empty
    one) is counted under the one identifier "unknown": when admitted
    it appends the row ("unknown", today), and it is refused as soon as
    the rows under "unknown" have reached the maximum, whoever made
    them. *)
Theorem unidentified_clients_share_a_bucket (pf : Platform) (w : World) (c : Context) (s : Store)
    (m : Z) :
  cf_connecting_ip (req c) = None \/ cf_connecting_ip (req c) = Some "" ->
  Js.parseInt (MAX_UPLOAD_COUNT (env c)) = Some m ->
  Js.safe m ->
  rejects w FCountUploads = false ->
  rejects w FInsertUpload = false ->
  let a := run pf w (checkIPUploadCount c (client_ip c)) s in
  client_ip c = "unknown"
  /\ ((count_uploads "unknown" (today w) (uploads s) < m)%Z ->
        result a = inr true
        /\ uploads (final a) = uploads s ++ [upload_row "unknown" (today w)])
  /\ ((count_uploads "unknown" (today w) (uploads s) >= m)%Z ->
        result a = inr false /\ final a = s).
Proof.
  intros Hip Hm _ Hcount Hinsert a. subst a.
  assert (Hunknown : client_ip c = "unknown").
  { unfold client_ip. by destruct Hip as [-> | ->]. }
  rewrite Hunknown, checkIPUploadCount_run, Hcount, Hinsert, (under_quota_number _ _ _ _ _ Hm).
  split_and!; [done| |].
  - intros Hlt. by rewrite bool_decide_eq_true_2.
  - intros Hge. by rewrite bool_decide_eq_false_2 by lia.
Qed.

Lemma unidentified_clients_share_a_bucket_witness :
  let pf := Sample.platform true in
  let w := Sample.world "k3j9x2a" Sample.no_fault in
  let c := Sample.context "1"
             {| content_type := Some "image/jpeg"; content_length := Some "4";
                cf_connecting_ip := None; json_body := None; raw_body := Sample.jpeg |} in
  let s := {| uploads := [upload_row "unknown" "2024-05-01"]; images := []; r2 := ∅ |} in
  result (run pf w (checkIPUploadCount c (client_ip c)) s) = inr false.
Proof.
  intros pf w c s.
  destruct (unidentified_clients_share_a_bucket pf w c s 1 (or_introl eq_refl) eq_refl)
    as (_ & _ & Hrefused); [unfold Js.safe, Js.MAX_SAFE_INTEGER; lia | reflexivity ..|].
  apply Hrefused. vm_compute. discriminate.
Defined.

(** X5. When MAX_UPLOAD_COUNT is unset or not a number, [parseInt]
    gives [NaN], the test [count >= NaN] is false, and
    [checkIPUploadCount] admits every attempt, whatever the client's
    count: the limit is off. *)
Theorem unparsable_maximum_admits_all (pf : Platform) (w : World) (c : Context) (s : Store)
    (ip : string) :
  Js.parseInt (MAX_UPLOAD_COUNT (env c)) = None ->
  rejects w FCountUploads = false ->
  rejects w FInsertUpload = false ->
  let a := run pf w (checkIPUploadCount c ip) s in
  result a = inr true
  /\ final a = set_uploads s (uploads s ++ [upload_row ip (today w)]).
Proof.
  intros Hnan Hcount Hinsert a. subst a.
  rewrite checkIPUploadCount_run, Hcount, Hinsert. unfold under_quota. rewrite Hnan. done.
Qed.

Lemma unparsable_maximum_admits_all_witness :
  let pf := Sample.platform true in
  let w := Sample.world "k3j9x2a" Sample.no_fault in
  let c := Sample.context "undefined" (Sample.url_request "https://example.org/cat.jpg") in
  result (run pf w (checkIPUploadCount c "203.0.113.7") (Sample.used 500)) = inr true.
Proof.
  intros pf w c.
  exact (proj1 (unparsable_maximum_admits_all pf w c (Sample.used 500) "203.0.113.7"
                  eq_refl eq_refl eq_refl)).
Defined.

Lemma count_uploads_none (ip date : string) (rows : list UploadRow) :
  (forall row, row ∈ rows -> upload_ip row = ip -> upload_date row <> date) ->
  count_uploads ip date rows = 0%Z.
Proof.
  intros Hrows. unfold count_uploads.
  induction rows as [|row rows IH]; [reflexivity|].
  rewrite filter_cons_False.
  - apply IH. intros row' Hin. apply Hrows. by right.
  - intros ->. apply (Hrows (upload_row ip date)); [by left|done|done].
Qed.

(** X6. The count is per calendar day: rows of the client under other
    dates do not count, so a client none of whose rows bears today's
    date is admitted whenever the maximum is positive, however many
    uploads it made before. *)
Theorem new_day_resets_quota (pf : Platform) (w : World) (c : Context) (s : Store)
    (ip : string) (m : Z) :
  Js.parseInt (MAX_UPLOAD_COUNT (env c)) = Some m ->
  Js.safe m ->
  (0 < m)%Z ->
  rejects w FCountUploads = false ->
  rejects w FInsertUpload = false ->
  (forall row, row ∈ uploads s -> upload_ip row = ip -> upload_date row <> today w) ->
  let a := run pf w (checkIPUploadCount c ip) s in
  result a = inr true
  /\ count_uploads ip (today w) (uploads (final a)) = 1%Z.
Proof.
  intros Hm _ Hpos Hcount Hinsert Hrows a. subst a.
  rewrite checkIPUploadCount_run, Hcount, Hinsert, (under_quota_number _ _ _ _ _ Hm).
  rewrite (count_uploads_none _ _ _ Hrows), bool_decide_eq_true_2 by done.
  split; [done|]. cbn [final uploads set_uploads negb].
  by rewrite count_uploads_app, (count_uploads_none _ _ _ Hrows), count_uploads_same.
Qed.

Lemma new_day_resets_quota_witness :
  let pf := Sample.platform true in
  let w := {| runtime_key := "workerd"; today := "2024-05-02"; timestamp := "20240502080000000";
              random_suffix := "k3j9x2a"; remote := Sample.web; rejects := Sample.no_fault |} in
  let c := Sample.context "2" (Sample.url_request "https://example.org/cat.jpg") in
  result (run pf w (checkIPUploadCount c "203.0.113.7") (Sample.used 2)) = inr true.
Proof.
  intros pf w c.
  refine (proj1 (new_day_resets_quota pf w c (Sample.used 2) "203.0.113.7" 2 eq_refl _ _
                   eq_refl eq_refl _)); [unfold Js.safe, Js.MAX_SAFE_INTEGER; lia | lia |].
  intros row Hin _. cbn in Hin.
  repeat (apply elem_of_cons in Hin as [->|Hin]; [discriminate|]).
  by apply elem_of_nil in Hin.
Defined.

(** X7. A client's attempts of one day, one after the other, on a D1
    that answers: exactly the first [m - n] are admitted, [n] being the
    client's count before ([m] the maximum), and all later ones are
    refused; each admitted attempt appends one row, so the count ends
    at [n] plus the number admitted and never passes the larger of [n]
    and [m]. *)
Theorem attempts_admit_up_to_maximum (pf : Platform) (w : World) (c : Context)
    (ip : string) (m : Z) (k : nat) (s : Store) :
  Js.parseInt (MAX_UPLOAD_COUNT (env c)) = Some m ->
  Js.safe m ->
  rejects w FCountUploads = false ->
  rejects w FInsertUpload = false ->
  let n := count_uploads ip (today w) (uploads s) in
  let admitted := Nat.min k (Z.to_nat (m - n)) in
  attempts pf w c ip k s =
    (replicate admitted (inr true) ++ replicate (k - admitted) (inr false),
     set_uploads s (uploads s ++ replicate admitted (upload_row ip (today w))))
  /\ count_uploads ip (today w) (uploads (attempts pf w c ip k s).2) = (n + Z.of_nat admitted)%Z
  /\ (count_uploads ip (today w) (uploads (attempts pf w c ip k s).2) <= Z.max n m)%Z.
Proof.
  intros Hm _ Hcount Hinsert. cbv zeta.
  assert (Hrun : forall k s,
    attempts pf w c ip k s =
      (replicate (Nat.min k (Z.to_nat (m - count_uploads ip (today w) (uploads s)))) (inr true)
       ++ replicate (k - Nat.min k (Z.to_nat (m - count_uploads ip (today w) (uploads s))))
            (inr false),
       set_uploads s
         (uploads s ++ replicate (Nat.min k (Z.to_nat (m - count_uploads ip (today w) (uploads s))))
                         (upload_row ip (today w))))).
  { clear k s. induction k as [|k IH]; intros s; cbn [attempts].
    - cbn. rewrite app_nil_r. by destruct s.
    - rewrite checkIPUploadCount_run, Hcount, Hinsert, (under_quota_number _ _ _ _ _ Hm).
      destruct (decide (count_uploads ip (today w) (uploads s) < m)%Z) as [Hlt|Hge].
      + rewrite bool_decide_eq_true_2 by done. cbn [negb result final].
        rewrite IH. cbn [fst snd uploads set_uploads].
        rewrite count_uploads_app, count_uploads_same.
        replace (Z.to_nat (m - count_uploads ip (today w) (uploads s)))
          with (S (Z.to_nat (m - (count_uploads ip (today w) (uploads s) + 1)))) by lia.
        rewrite <- Nat.succ_min_distr. cbn [replicate app Nat.sub].
        f_equal. unfold set_uploads; cbn. by rewrite <- app_assoc.
      + rewrite bool_decide_eq_false_2 by done. cbn [negb result final].
        rewrite IH. cbn [fst snd].
        replace (Z.to_nat (m - count_uploads ip (today w) (uploads s))) with 0%nat by lia.
        rewrite !Nat.min_0_r. cbn [replicate app Nat.sub]. by rewrite Nat.sub_0_r. }
  rewrite Hrun. cbn [fst snd uploads set_uploads]. split_and!; [done| |].
  - rewrite count_uploads_app. f_equal.
    generalize (Nat.min k (Z.to_nat (m - count_uploads ip (today w) (uploads s)))).
    intros a. induction a as [|a IHa]; [reflexivity|].
    change (replicate (S a) ?x) with ([x] ++ replicate a x).
    rewrite count_uploads_app, count_uploads_same, IHa. lia.
  - rewrite count_uploads_app.
    assert (Hrep : forall a, count_uploads ip (today w) (replicate a (upload_row ip (today w)))
                             = Z.of_nat a).
    { intros a. induction a as [|a IHa]; [reflexivity|].
      change (replicate (S a) ?x) with ([x] ++ replicate a x).
      rewrite count_uploads_app, count_uploads_same, IHa. lia. }
    rewrite Hrep. lia.
Qed.

Lemma attempts_admit_up_to_maximum_witness :
  let pf := Sample.platform true in
  let w := Sample.world "k3j9x2a" Sample.no_fault in
  let c := Sample.context "3" (Sample.url_request "https://example.org/cat.jpg") in
  (attempts pf w c "203.0.113.7" 5 (Sample.used 1)).1
  = [inr true; inr true; inr false; inr false; inr false].
Proof.
  intros pf w c.
  destruct (attempts_admit_up_to_maximum pf w c "203.0.113.7" 3 5 (Sample.used 1) eq_refl)
    as (Hrun & _); [unfold Js.safe, Js.MAX_SAFE_INTEGER; lia | reflexivity ..|].
  cbv zeta in Hrun. rewrite Hrun. reflexivity.
Defined.

(** ** What a run can do to the tables and to the bucket *)

Lemma select_image_url_none (md5 : string) (rows : list ImageRow) :
  select_image_url md5 rows = None <-> md5 ∉ image_md5 <$> rows.
Proof.
  unfold select_image_url. induction rows as [|row rows IH]; cbn [fmap list_fmap].
  - split; [intros _ H; by apply elem_of_nil in H|done].
  - destruct (decide (image_md5 row = md5)) as [Heq|Hne].
    + rewrite filter_cons_True by done. cbn. split; [discriminate|].
      intros H. exfalso. apply H. rewrite Heq. by left.
    + rewrite filter_cons_False by done. rewrite IH. split.
      * intros H Hin. apply elem_of_cons in Hin as [Heq|Hin]; [by symmetry in Heq|done].
      * intros H Hin. apply H. by right.
Qed.

Lemma select_image_url_some (md5 url : string) (rows : list ImageRow) :
  select_image_url md5 rows = Some url ->
  exists row, row ∈ rows /\ image_md5 row = md5 /\ image_url row = url.
Proof.
  unfold select_image_url. induction rows as [|row rows IH]; [discriminate|].
  destruct (decide (image_md5 row = md5)) as [Heq|Hne].
  - rewrite filter_cons_True by done. cbn. intros [= <-]. exists row. split_and!; [by left|done|done].
  - rewrite filter_cons_False by done. intros H. destruct (IH H) as (row' & Hin & Hrow).
    exists row'. split; [by right|done].
Qed.

(** Under [index_ok] a lookup that is not truthy found no row. *)
Lemma index_ok_falsy_lookup (md5 : string) (rows : list ImageRow) :
  index_ok rows -> Js.truthy (select_image_url md5 rows) = false ->
  select_image_url md5 rows = None.
Proof.
  intros [_ Hurls] Hfalsy. destruct (select_image_url md5 rows) as [url|] eqn:Hsel; [|done].
  destruct (select_image_url_some _ _ _ Hsel) as (row & Hin & _ & Hurl).
  rewrite Forall_forall in Hurls. specialize (Hurls row Hin). rewrite Hurl in Hurls.
  by destruct url.
Qed.

Lemma index_ok_append (rows : list ImageRow) (url md5 : string) (original_url : option string) :
  index_ok rows -> select_image_url md5 rows = None -> url <> "" ->
  index_ok (rows ++ [image_row url md5 original_url]).
Proof.
  intros [Hdup Hurls] Hmiss Hne. split.
  - rewrite fmap_app. apply NoDup_app. split_and!; [done| |apply NoDup_singleton].
    intros x Hx Hin. cbn in Hin. apply list_elem_of_singleton in Hin as ->.
    by apply select_image_url_none in Hmiss.
  - apply Forall_app. split; [done|]. by apply Forall_singleton.
Qed.

(** What [ingest] leaves: [uploads] as it was; [images] as it was or
    with one row appended after a lookup that was not truthy; the
    bucket as it was or with the one object put. *)
Lemma ingest_effects (pf : Platform) (w : World) (c : Context) (bytes : list Byte.byte)
    (contentType : string) (original_url : option string) (s : Store) :
  let o := ingest pf w c bytes contentType original_url s in
  uploads (final o) = uploads s
  /\ (images (final o) = images s
      \/ exists url,
           Js.truthy (select_image_url (calculateMD5 bytes) (images s)) = false
           /\ url_with_pathname pf (R2_BASE_URL (env c)) (object_key pf w c contentType) = Some url
           /\ result o = inr (success url)
           /\ images (final o) = images s ++ [image_row url (calculateMD5 bytes) original_url])
  /\ (r2 (final o) = r2 s
      \/ r2 (final o) = <[object_key pf w c contentType := stored_object bytes contentType]> (r2 s)).
Proof.
  cbv zeta. unfold ingest. cbn [after result final].
  destruct (rejects w FSelectImageUrl); [by split_and!; [|left|left]|].
  destruct (Js.truthy _) eqn:Htruthy; [by split_and!; [|left|left]|].
  cbn [after result final]. cbv zeta.
  destruct (rejects w FR2Put); [by split_and!; [|left|left]|].
  destruct (url_with_pathname _ _ _) as [url|] eqn:Hurl; [|by split_and!; [|left|right]].
  unfold record_image. cbn [images set_r2].
  destruct (md5_unique pf && _); [by split_and!; [|left|right]|].
  destruct (rejects w FInsertImage); [by split_and!; [|left|right]|].
  split_and!; [done| |by right]. right. exists url. by split_and!.
Qed.

Lemma upload_from_body_effects (pf : Platform) (w : World) (c : Context) (s : Store) :
  let o := run pf w (upload_from_body pf c) s in
  (uploads (final o) = uploads s
   \/ uploads (final o) = uploads s ++ [upload_row (client_ip c) (today w)])
  /\ (images (final o) = images s
      \/ exists url contentType,
           Js.truthy (select_image_url (calculateMD5 (raw_body (req c))) (images s)) = false
           /\ url_with_pathname pf (R2_BASE_URL (env c)) (object_key pf w c contentType) = Some url
           /\ result o = inr (success url)
           /\ images (final o)
              = images s ++ [image_row url (calculateMD5 (raw_body (req c))) None])
  /\ (r2 (final o) = r2 s
      \/ exists contentType,
           r2 (final o)
           = <[object_key pf w c contentType := stored_object (raw_body (req c)) contentType]>
               (r2 s)).
Proof.
  cbv zeta. rewrite upload_from_body_run. cbn [after result final].
  destruct (negb _); [by split_and!; left|].
  destruct (not_an_image _); [by split_and!; left|].
  destruct (exceeds _ _); [by split_and!; left|].
  cbv zeta. rewrite checkIPUploadCount_run.
  destruct (rejects w FCountUploads); [by split_and!; left|].
  destruct (negb (under_quota _ _ _ _)); [by split_and!; left|].
  destruct (rejects w FInsertUpload); [by split_and!; left|].
  cbn [after result final].
  destruct (rejects w FRequestArrayBuffer); [by split_and!; [right|left|left]|].
  match goal with |- context [ingest pf w c ?b ?ct ?o ?s'] =>
    destruct (ingest_effects pf w c b ct o s') as (Hu & Hi & Hr) end.
  cbn [uploads images r2 set_uploads] in Hu, Hi, Hr.
  split_and!.
  - right. by rewrite Hu.
  - destruct Hi as [Hi|(url & ? & ? & ? & ?)]; [by left|right; eauto 10].
  - destruct Hr as [Hr|Hr]; [by left|right; eauto].
Qed.

Lemma upload_from_url_effects (pf : Platform) (w : World) (c : Context) (s : Store) :
  let o := run pf w (upload_from_url pf c) s in
  (uploads (final o) = uploads s
   \/ uploads (final o) = uploads s ++ [upload_row (client_ip c) (today w)])
  /\ (images (final o) = images s
      \/ exists url contentType bytes source,
           Js.truthy (select_image_url (calculateMD5 bytes) (images s)) = false
           /\ url_with_pathname pf (R2_BASE_URL (env c)) (object_key pf w c contentType) = Some url
           /\ result o = inr (success url)
           /\ images (final o) = images s ++ [image_row url (calculateMD5 bytes) (Some source)])
  /\ (r2 (final o) = r2 s
      \/ exists contentType bytes,
           r2 (final o)
           = <[object_key pf w c contentType := stored_object bytes contentType]> (r2 s)).
Proof.
  cbv zeta. rewrite upload_from_url_run. cbn [after result final].
  destruct (negb _); [by split_and!; left|]. cbn [after result final].
  destruct (json_body (req c)) as [[|[|ch url]|]|]; try (by split_and!; left);
    cbv zeta; rewrite checkIPUploadCount_run;
    (destruct (rejects w FCountUploads); [by split_and!; left|]);
    (destruct (negb (under_quota _ _ _ _)); [by split_and!; left|]);
    (destruct (rejects w FInsertUpload); [by split_and!; left|]);
    cbn [after result final]; [|by split_and!; [right|left|left]].
  destruct (Js.startsWith _ _); [by split_and!; [right|left|left]|].
  unfold fetch_and_ingest. cbn [after result final].
  destruct (remote w _) as [response|]; [|by split_and!; [right|left|left]].
  destruct (not_an_image _); [by split_and!; [right|left|left]|].
  destruct (exceeds _ _); [by split_and!; [right|left|left]|].
  cbn [after result final].
  destruct (response_body response) as [bytes|]; [|by split_and!; [right|left|left]].
  match goal with |- context [ingest pf w c ?b ?ct ?o ?s'] =>
    destruct (ingest_effects pf w c b ct o s') as (Hu & Hi & Hr);
    unfold caught; destruct (ingest pf w c b ct o s') as [[e|r] s1 t1] end;
    cbn [result final uploads images r2 set_uploads] in *.
  - split_and!; [right; by rewrite Hu| |destruct Hr as [Hr|Hr]; [by left|right; eauto]].
    destruct Hi as [Hi|(u & _ & _ & [=] & _)]. by left.
  - split_and!; [right; by rewrite Hu| |destruct Hr as [Hr|Hr]; [by left|right; eauto]].
    destruct Hi as [Hi|(u & ? & ? & ? & ?)]; [by left|right; eauto 10].
Qed.

Lemma sample_url_api_ok (unique : bool) : url_api_ok (Sample.platform unique).
Proof.
  intros base key url. cbn. unfold Sample.origin_url.
  destruct (_ || _); [|discriminate]. intros [= <-]. by destruct base.
Qed.

(** X8. One row per fingerprint.  If [images] holds at most one row
    per md5 and no row with an empty URL, and the URL API never gives
    an empty string, then it still does after any run of either route,
    whatever the request, the remote server and the failures: a run
    appends a row only after a lookup of that md5 that found none. *)
Theorem routes_keep_index_ok (pf : Platform) (w : World) (c : Context) (s : Store) :
  url_api_ok pf ->
  index_ok (images s) ->
  index_ok (images (final (run pf w (upload_from_body pf c) s)))
  /\ index_ok (images (final (run pf w (upload_from_url pf c) s))).
Proof.
  intros Hapi Hok. split.
  - destruct (upload_from_body_effects pf w c s) as (_ & Hi & _).
    destruct Hi as [-> | (url & ct & Hfalsy & Hurl & _ & ->)]; [done|].
    apply index_ok_append; [done|by apply index_ok_falsy_lookup|by eapply Hapi].
  - destruct (upload_from_url_effects pf w c s) as (_ & Hi & _).
    destruct Hi as [-> | (url & ct & bytes & source & Hfalsy & Hurl & _ & ->)]; [done|].
    apply index_ok_append; [done|by apply index_ok_falsy_lookup|by eapply Hapi].
Qed.

Lemma routes_keep_index_ok_witness :
  let pf := Sample.platform false in
  let w := Sample.world "k3j9x2a" Sample.no_fault in
  let c := Sample.context "10" (Sample.body_request (Some "image/jpeg") (Some "4") Sample.jpeg) in
  index_ok (images (final (run pf w (upload_from_body pf c) Sample.empty))).
Proof.
  intros pf w c.
  refine (proj1 (routes_keep_index_ok pf w c Sample.empty (sample_url_api_ok false) _)).
  split; [apply NoDup_nil_2 | apply Forall_nil_2].
Defined.

(** X9. The routes only add.  Whatever the request, the remote server
    and the failures, a run of either route leaves [uploads] and
    [images] as they were or with one row appended at the end, removes
    no object from the bucket and adds at most one key to it. *)
Theorem routes_only_append (pf : Platform) (w : World) (c : Context) (s : Store) (o : Outcome Reply) :
  o = run pf w (upload_from_body pf c) s \/ o = run pf w (upload_from_url pf c) s ->
  (exists rows, uploads (final o) = uploads s ++ rows /\ (length rows <= 1)%nat)
  /\ (exists rows, images (final o) = images s ++ rows /\ (length rows <= 1)%nat)
  /\ (forall key, is_Some (r2 s !! key) -> is_Some (r2 (final o) !! key))
  /\ (size (r2 (final o)) <= S (size (r2 s)))%nat.
Proof.
  assert (Hput : forall (m : gmap string R2Object) k v,
            (forall key, is_Some (m !! key) -> is_Some (<[k := v]> m !! key))
            /\ (size (<[k := v]> m) <= S (size m))%nat).
  { intros m k v. split.
    - intros key Hkey. destruct (decide (k = key)) as [->|Hne].
      + rewrite lookup_insert_eq. eauto.
      + by rewrite lookup_insert_ne.
    - rewrite map_size_insert. destruct (m !! k); cbn; lia. }
  assert (Hgen :
    (uploads (final o) = uploads s
     \/ uploads (final o) = uploads s ++ [upload_row (client_ip c) (today w)]) ->
    (images (final o) = images s \/ exists row, images (final o) = images s ++ [row]) ->
    (r2 (final o) = r2 s \/ exists k v, r2 (final o) = <[k := v]> (r2 s)) ->
    (exists rows, uploads (final o) = uploads s ++ rows /\ (length rows <= 1)%nat)
    /\ (exists rows, images (final o) = images s ++ rows /\ (length rows <= 1)%nat)
    /\ (forall key, is_Some (r2 s !! key) -> is_Some (r2 (final o) !! key))
    /\ (size (r2 (final o)) <= S (size (r2 s)))%nat).
  { intros Hu Hi Hr. split_and!.
    - destruct Hu as [-> | ->]; [exists []; rewrite app_nil_r|eexists]; split; eauto; cbn; lia.
    - destruct Hi as [-> | [row ->]]; [exists []; rewrite app_nil_r|eexists]; split; eauto;
        cbn; lia.
    - destruct Hr as [-> | (k & v & ->)]; [done|apply Hput].
    - destruct Hr as [-> | (k & v & ->)]; [lia|apply Hput]. }
  intros [-> | ->].
  - destruct (upload_from_body_effects pf w c s) as (Hu & Hi & Hr). apply Hgen; [done| |].
    + destruct Hi as [Hi|(url & ct & _ & _ & _ & Hi)]; eauto.
    + destruct Hr as [Hr|(ct & Hr)]; eauto.
  - destruct (upload_from_url_effects pf w c s) as (Hu & Hi & Hr). apply Hgen; [done| |].
    + destruct Hi as [Hi|(url & ct & bytes & source & _ & _ & _ & Hi)]; eauto.
    + destruct Hr as [Hr|(ct & bytes & Hr)]; eauto.
Qed.

Lemma routes_only_append_witness :
  let pf := Sample.platform true in
  let w := Sample.world "k3j9x2a" Sample.no_fault in
  let c := Sample.context "10" (Sample.body_request (Some "image/jpeg") (Some "4") Sample.jpeg) in
  (size (r2 (final (run pf w (upload_from_body pf c) (Sample.used 2)))) <= 1)%nat.
Proof.
  intros pf w c.
  exact (proj2 (proj2 (proj2 (routes_only_append pf w c (Sample.used 2) _ (or_introl eq_refl))))).
Defined.

(** X10. What [/upload-from-body] answers is what the index holds.  On
    an index with at most one row per md5 and no empty URL, whenever
    the route answers a success, the URL it answers is the one a lookup
    of the body's MD5 returns in the store it leaves, be it a hit or a
    fresh upload. *)
Theorem body_reply_is_indexed (pf : Platform) (w : World) (c : Context) (s : Store)
    (url : string) :
  index_ok (images s) ->
  result (run pf w (upload_from_body pf c) s) = inr {| status := 200; body := SuccessBody url |} ->
  select_image_url (calculateMD5 (raw_body (req c)))
    (images (final (run pf w (upload_from_body pf c) s))) = Some url.
Proof.
  intros Hok. rewrite upload_from_body_run. cbn [after result final].
  destruct (negb _); [done|].
  destruct (not_an_image _); [done|].
  destruct (exceeds _ _); [done|].
  cbv zeta. rewrite checkIPUploadCount_run.
  destruct (rejects w FCountUploads); [done|].
  destruct (negb (under_quota _ _ _ _)); [done|].
  destruct (rejects w FInsertUpload); [done|].
  cbn [after result final].
  destruct (rejects w FRequestArrayBuffer); [done|].
  unfold ingest. cbn [after result final images set_uploads].
  destruct (rejects w FSelectImageUrl); [done|].
  destruct (Js.truthy _) eqn:Htruthy.
  - cbn [result final images]. intros [= <-].
    by destruct (select_image_url _ _).
  - apply (index_ok_falsy_lookup _ _ Hok) in Htruthy as Hmiss.
    cbn [after result final]. cbv zeta.
    destruct (rejects w FR2Put); [done|].
    destruct (url_with_pathname _ _ _) as [imageUrl|]; [|done].
    unfold record_image. cbn [images set_r2 set_uploads].
    destruct (md5_unique pf && _); [done|].
    destruct (rejects w FInsertImage); [done|].
    cbn [result final images set_images]. intros [= <-].
    by apply select_image_url_app_miss.
Qed.

Lemma body_reply_is_indexed_witness :
  let pf := Sample.platform true in
  let w := Sample.world "k3j9x2a" Sample.no_fault in
  let c := Sample.context "10" (Sample.body_request (Some "image/jpeg") (Some "4") Sample.jpeg) in
  select_image_url (calculateMD5 Sample.jpeg)
    (images (final (run pf w (upload_from_body pf c) Sample.empty)))
  = Some "https://img.example.com/uploads/20240501120000000-k3j9x2a.jpg".
Proof.
  intros pf w c.
  refine (body_reply_is_indexed pf w c Sample.empty _ _ _); [|vm_compute; reflexivity].
  split; [apply NoDup_nil_2 | apply Forall_nil_2].
Defined.

(** ** Dedup across the two routes *)

(** X11. The index is shared by the two routes.  After
    [/upload-from-body] has stored some bytes, a request to
    [/upload-from-url] whose remote image has the same bytes is answered
    with the URL of the first upload: nothing is put in R2, [images] is
    left as it was (its row keeps [original_url = NULL]; the source URL
    of the second request is not recorded), and only the admission row
    is added. *)
Theorem url_route_hits_body_upload (pf : Platform) (w1 w2 : World) (c1 c2 : Context) (s : Store)
    (contentType1 contentType2 url source : string) (response : Response) :
  runtime_key w1 = "workerd" ->
  content_type (req c1) = Some contentType1 ->
  Js.startsWith contentType1 "image/" = true ->
  exceeds (content_length (req c1)) (Js.parseInt (MAX_BODY_SIZE (env c1))) = false ->
  (forall f, rejects w1 f = false) ->
  under_quota w1 c1 (client_ip c1) (uploads s) = true ->
  select_image_url (calculateMD5 (raw_body (req c1))) (images s) = None ->
  url_with_pathname pf (R2_BASE_URL (env c1)) (object_key pf w1 c1 contentType1) = Some url ->
  url <> "" ->
  runtime_key w2 = "workerd" ->
  json_body (req c2) = Some (UrlString source) ->
  source <> "" ->
  Js.startsWith source (R2_BASE_URL (env c2)) = false ->
  remote w2 source = Some response ->
  response_content_type response = Some contentType2 ->
  Js.startsWith contentType2 "image/" = true ->
  exceeds (response_content_length response) (Js.parseInt (MAX_BODY_SIZE (env c2))) = false ->
  response_body response = Some (raw_body (req c1)) ->
  (forall f, rejects w2 f = false) ->
  under_quota w2 c2 (client_ip c2) (uploads s ++ [upload_row (client_ip c1) (today w1)]) = true ->
  let o1 := run pf w1 (upload_from_body pf c1) s in
  let o2 := run pf w2 (upload_from_url pf c2) (final o1) in
  result o1 = inr {| status := 200; body := SuccessBody url |}
  /\ result o2 = inr {| status := 200; body := SuccessBody url |}
  /\ r2 (final o2) = r2 (final o1)
  /\ images (final o2) = images s ++ [image_row url (calculateMD5 (raw_body (req c1))) None]
  /\ uploads (final o2) = uploads (final o1) ++ [upload_row (client_ip c2) (today w2)]
  /\ no_event is_put (trace o2)
  /\ no_event is_insert_image (trace o2).
Proof.
  intros Hrt1 Hct1 Himg1 Hsize1 Hok1 Hq1 Hmiss Hurl Hne Hrt2 Hjson Hsrc Hpre Hremote Hct2
    Himg2 Hsize2 Hbody Hok2 Hq2. cbv zeta.
  rewrite (first_upload_stores pf w1 c1 s contentType1 url) by done. cbn [result final].
  rewrite (upload_from_url_admitted pf w2 c2 _ source) by done.
  unfold fetch_and_ingest.
  rewrite Hremote, Hct2, (not_an_image_image _ Himg2), Hsize2, Hbody.
  change (default "" (Some contentType2)) with contentType2.
  rewrite (ingest_hit pf w2 c2 _ contentType2 url); [by split_and!|done| |done].
  cbn [images set_uploads]. by apply select_image_url_app_miss.
Qed.

Lemma url_route_hits_body_upload_witness :
  let pf := Sample.platform true in
  let w1 := Sample.world "k3j9x2a" Sample.no_fault in
  let w2 := Sample.world "p0q8r7s" Sample.no_fault in
  let c1 := Sample.context "10" (Sample.body_request (Some "image/jpeg") (Some "4") Sample.jpeg) in
  let c2 := Sample.context "10" (Sample.url_request "https://example.org/cat.jpg") in
  let o1 := run pf w1 (upload_from_body pf c1) Sample.empty in
  let o2 := run pf w2 (upload_from_url pf c2) (final o1) in
  result o2 = inr {| status := 200;
                     body := SuccessBody
                               "https://img.example.com/uploads/20240501120000000-k3j9x2a.jpg" |}
  /\ r2 (final o2) = r2 (final o1).
Proof.
  intros pf w1 w2 c1 c2.
  destruct (url_route_hits_body_upload pf w1 w2 c1 c2 Sample.empty "image/jpeg" "image/jpeg"
              "https://img.example.com/uploads/20240501120000000-k3j9x2a.jpg"
              "https://example.org/cat.jpg" Sample.jpeg_response)
    as (_ & H2 & Hr2 & _).
  1-8, 10-11, 13-20: reflexivity.
  1-2: discriminate.
  cbv zeta. split; [exact H2 | exact Hr2].
Defined.

(** ** [uploadImageToR2] *)

(** X12. The key of a stored object.  For a content type that starts
    with "image/" and is not one of the seven of the table (a type with
    parameters, say), [uploadImageToR2] puts the object under
    prefix + timestamp + "-" + suffix + ".unknown", with the declared
    content type as its metadata; the other objects of the bucket and
    the two tables are left as they were. *)
Theorem unrecognized_image_key (pf : Platform) (w : World) (c : Context) (s : Store)
    (bytes : list Byte.byte) (contentType : string) :
  Js.startsWith contentType "image/" = true ->
  contentType ∉ recognized ->
  rejects w FR2Put = false ->
  let key := (R2_BUCKET_PREFIX (env c) ++ timestamp w ++ "-" ++ random_suffix w ++ ".unknown")%string in
  let o := run pf w (uploadImageToR2 pf c bytes contentType) s in
  trace o = [Ev Timestamp; Ev RandomSuffix; Ev (R2Put key bytes contentType)]
  /\ r2 (final o) !! key = Some {| object_body := bytes; object_content_type := contentType |}
  /\ (forall other, other <> key -> r2 (final o) !! other = r2 s !! other)
  /\ uploads (final o) = uploads s
  /\ images (final o) = images s.
Proof.
  intros Himg Hrec Hput. cbv zeta.
  rewrite uploadImageToR2_run by (by apply image_prefix_nonempty). rewrite Hput.
  cbn [result final trace set_r2 uploads images r2].
  assert (Hkey : object_key pf w c contentType
                 = (R2_BUCKET_PREFIX (env c) ++ timestamp w ++ "-" ++ random_suffix w
                    ++ ".unknown")%string).
  { unfold object_key, extension_text.
    destruct (image_extension _ Himg) as (ext & -> & Hext). cbn. by rewrite (Hext Hrec). }
  rewrite Hkey. split_and!; [done| |intros other Hne|done|done].
  - by rewrite lookup_insert_eq.
  - by rewrite lookup_insert_ne.
Qed.

Lemma unrecognized_image_key_witness :
  let pf := Sample.platform true in
  let w := Sample.world "k3j9x2a" Sample.no_fault in
  let c := Sample.context "10" (Sample.body_request (Some "image/jpeg; charset=binary") None Sample.jpeg) in
  trace (run pf w (uploadImageToR2 pf c Sample.jpeg "image/jpeg; charset=binary") Sample.empty)
  = [Ev Timestamp; Ev RandomSuffix;
     Ev (R2Put "uploads/20240501120000000-k3j9x2a.unknown" Sample.jpeg "image/jpeg; charset=binary")].
Proof.
  intros pf w c.
  refine (proj1 (unrecognized_image_key pf w c Sample.empty Sample.jpeg
                   "image/jpeg; charset=binary" eq_refl _ eq_refl)).
  decide_not_elem.
Defined.

(** X13. The object is put before its URL is built.  When
    [new URL(R2_BASE_URL)] throws (a base that is no URL), an admitted
    upload of a new fingerprint to [/upload-from-body] has already put
    its object: the route throws [TypeError], the object stays in R2,
    and [images] has no row for it, so the same bytes will be stored
    again. *)
Theorem bad_base_url_orphans_object (pf : Platform) (w : World) (c : Context) (s : Store)
    (contentType : string) :
  runtime_key w = "workerd" ->
  content_type (req c) = Some contentType ->
  Js.startsWith contentType "image/" = true ->
  exceeds (content_length (req c)) (Js.parseInt (MAX_BODY_SIZE (env c))) = false ->
  (forall f, rejects w f = false) ->
  under_quota w c (client_ip c) (uploads s) = true ->
  select_image_url (calculateMD5 (raw_body (req c))) (images s) = None ->
  url_with_pathname pf (R2_BASE_URL (env c)) (object_key pf w c contentType) = None ->
  let o := run pf w (upload_from_body pf c) s in
  result o = inl Js.TypeError
  /\ r2 (final o)
     = <[object_key pf w c contentType := stored_object (raw_body (req c)) contentType]> (r2 s)
  /\ images (final o) = images s
  /\ select_image_url (calculateMD5 (raw_body (req c))) (images (final o)) = None.
Proof.
  intros Hrt Hct Himg Hsize Hok Hquota Hmiss Hurl. cbv zeta.
  rewrite (upload_from_body_admitted pf w c s contentType) by done.
  unfold ingest. rewrite Hok. cbn [images set_uploads]. rewrite Hmiss. cbn [Js.truthy].
  rewrite Hok, Hurl. done.
Qed.

Lemma bad_base_url_orphans_object_witness :
  let pf := Sample.platform true in
  let w := Sample.world "k3j9x2a" Sample.no_fault in
  let c := {| env := {| MAX_BODY_SIZE := "10485760"; MAX_UPLOAD_COUNT := "10";
                        R2_BASE_URL := "img.example.com"; R2_BUCKET_PREFIX := "uploads/" |};
              req := Sample.body_request (Some "image/jpeg") (Some "4") Sample.jpeg |} in
  result (run pf w (upload_from_body pf c) Sample.empty) = inl Js.TypeError
  /\ size (r2 (final (run pf w (upload_from_body pf c) Sample.empty))) = 1%nat.
Proof.
  intros pf w c.
  destruct (bad_base_url_orphans_object pf w c Sample.empty "image/jpeg")
    as (Hres & Hr2 & _); try reflexivity.
  cbv zeta in Hres, Hr2. split; [exact Hres|]. rewrite Hr2. reflexivity.
Defined.

(** ** The fetch stage of [/upload-from-url] *)



(** ** A ceiling that is not a number *)

Lemma exceeds_nan (contentLength : option string) : exceeds contentLength None = false.
Proof.
  unfold exceeds, Js.gt. destruct (Js.parseInt _); apply andb_false_r.
Qed.

(** X15. When MAX_BODY_SIZE is unset or not a number, [parseInt] gives
    [NaN] and the test [parseInt(contentLength) > NaN] is false for
    every declared length: neither route ever answers 400
    [{error: "Image size exceeds the limit"}]; the ceiling is off. *)
Theorem unparsable_ceiling_never_rejects (pf : Platform) (w : World) (c : Context) (s : Store) :
  Js.parseInt (MAX_BODY_SIZE (env c)) = None ->
  (forall contentLength,
     exceeds contentLength (Js.parseInt (MAX_BODY_SIZE (env c))) = false)
  /\ result (run pf w (upload_from_body pf c) s)
     <> inr {| status := 400; body := ErrorBody "Image size exceeds the limit" |}
  /\ result (run pf w (upload_from_url pf c) s)
     <> inr {| status := 400; body := ErrorBody "Image size exceeds the limit" |}.
Proof.
  intros Hnan. rewrite Hnan. split_and!; [apply exceeds_nan| |].
  - rewrite upload_from_body_run, Hnan, exceeds_nan. cbn [after result].
    destruct (negb _); [done|].
    destruct (not_an_image _); [done|].
    cbv zeta. rewrite checkIPUploadCount_run.
    destruct (rejects w FCountUploads); [done|].
    destruct (negb (under_quota _ _ _ _)); [done|].
    destruct (rejects w FInsertUpload); [done|].
    cbn [after result final]. destruct (rejects w FRequestArrayBuffer); [done|].
    match goal with |- context [ingest pf w c ?b ?ct ?o ?s'] =>
      destruct (ingest_cases pf w c b ct o s') as (_ & Hr) end.
    intros Hres. destruct (Hr _ Hres) as (u & [=]).
  - rewrite upload_from_url_run. cbn [after result].
    destruct (negb _); [done|]. cbn [after result].
    destruct (json_body (req c)) as [[|[|ch url]|]|]; try done;
      cbv zeta; rewrite checkIPUploadCount_run;
      (destruct (rejects w FCountUploads); [done|]);
      (destruct (negb (under_quota _ _ _ _)); [done|]);
      (destruct (rejects w FInsertUpload); [done|]);
      cbn [after result final]; [|done].
    destruct (Js.startsWith _ _); [done|].
    unfold fetch_and_ingest. rewrite Hnan. cbn [after result].
    destruct (remote w _) as [response|]; [|done].
    destruct (not_an_image _); [done|]. rewrite exceeds_nan. cbn [after result].
    destruct (response_body response) as [bytes|]; [|done].
    match goal with |- context [ingest pf w c ?b ?ct ?o ?s'] =>
      destruct (ingest_cases pf w c b ct o s') as (_ & Hr);
      unfold caught; destruct (ingest pf w c b ct o s') as [[e|r] s1 t1] end;
      cbn [result] in *; [done|].
    destruct (Hr _ eq_refl) as (u & ->). done.
Qed.

Lemma unparsable_ceiling_never_rejects_witness :
  let pf := Sample.platform true in
  let w := Sample.world "k3j9x2a" Sample.no_fault in
  let c := {| env := {| MAX_BODY_SIZE := "unlimited"; MAX_UPLOAD_COUNT := "10";
                        R2_BASE_URL := "https://img.example.com";
                        R2_BUCKET_PREFIX := "uploads/" |};
              req := Sample.body_request (Some "image/jpeg") (Some "99999999999") Sample.jpeg |} in
  exceeds (content_length (req c)) (Js.parseInt (MAX_BODY_SIZE (env c))) = false.
Proof.
  intros pf w c.
  exact (proj1 (unparsable_ceiling_never_rejects pf w c Sample.empty eq_refl) _).
Defined.

(** ** The earlier revision *)

Lemma upload_from_body_v1_run (pf : Platform) (w : World) (c : Context) (s : Store) :
  run pf w (upload_from_body_v1 pf c) s =
    after [Ev RuntimeKey]
      (if negb (String.eqb (runtime_key w) "workerd") then
         {| result := inr unsupported_runtime; final := s; trace := [] |}
       else if not_an_image (content_type (req c)) then
         {| result := inr invalid_format; final := s; trace := [] |}
       else if exceeds (content_length (req c)) (Js.parseInt (MAX_BODY_SIZE (env c))) then
         {| result := inr too_large; final := s; trace := [] |}
       else
         after [Ev (RequestArrayBuffer c)]
           (if rejects w FRequestArrayBuffer then
              {| result := inl Js.Rejected; final := s; trace := [] |}
            else
              let contentType := default "" (content_type (req c)) in
              let key := object_key pf w c contentType in
              after [Ev Timestamp; Ev RandomSuffix; Ev (R2Put key (raw_body (req c)) contentType)]
                (if rejects w FR2Put then
                   {| result := inl Js.Rejected; final := s; trace := [] |}
                 else
                   {| result := match url_with_pathname pf (R2_BASE_URL (env c)) key with
                                | Some imageUrl => inr (success imageUrl)
                                | None => inl Js.TypeError
                                end;
                      final := set_r2 s (<[key := stored_object (raw_body (req c)) contentType]>
                                           (r2 s));
                      trace := [] |}))).
Proof.
  unfold upload_from_body_v1. run_all.
  destruct (negb _); [reflexivity|].
  destruct (not_an_image _) eqn:Himg; [reflexivity|].
  apply not_an_image_false in Himg as (ct & -> & _ & Hne).
  destruct (exceeds _ _); [reflexivity|].
  run_all. destruct (rejects w FRequestArrayBuffer); cbn [fst snd]; [reflexivity|].
  change (default "" (Some ct)) with ct. cbv zeta.
  rewrite run_bind, uploadImageToR2_run by done.
  destruct (rejects w FR2Put); [reflexivity|]. cbn [result final trace].
  destruct (url_with_pathname _ _ _); unfold after; cbn; by rewrite ?app_nil_r.
Qed.

(** X16. The earlier [/upload-from-body] knows neither quota nor
    index: it starts no D1 statement and leaves both tables as they
    are, whatever happens; and a well-formed request whose put succeeds
    is always stored under a fresh key and answered with its URL, also
    when [images] already holds a row for the very same bytes. *)
Theorem earlier_body_route_always_stores (pf : Platform) (w : World) (c : Context) (s : Store)
    (contentType url : string) :
  let o := run pf w (upload_from_body_v1 pf c) s in
  (no_event is_d1 (trace o) /\ uploads (final o) = uploads s /\ images (final o) = images s)
  /\ (runtime_key w = "workerd" ->
      content_type (req c) = Some contentType ->
      Js.startsWith contentType "image/" = true ->
      exceeds (content_length (req c)) (Js.parseInt (MAX_BODY_SIZE (env c))) = false ->
      rejects w FRequestArrayBuffer = false ->
      rejects w FR2Put = false ->
      url_with_pathname pf (R2_BASE_URL (env c)) (object_key pf w c contentType) = Some url ->
      result o = inr {| status := 200; body := SuccessBody url |}
      /\ r2 (final o)
         = <[object_key pf w c contentType := stored_object (raw_body (req c)) contentType]>
             (r2 s)).
Proof.
  cbv zeta. rewrite upload_from_body_v1_run. split.
  - destruct (negb _); [done|].
    destruct (not_an_image _); [done|].
    destruct (exceeds _ _); [done|].
    destruct (rejects w FRequestArrayBuffer); [done|].
    cbv zeta. destruct (rejects w FR2Put); done.
  - intros Hrt Hct Himg Hsize Hread Hput Hurl.
    rewrite Hrt, Hct, (not_an_image_image _ Himg), Hsize, Hread.
    change (default "" (Some contentType)) with contentType. cbv zeta.
    rewrite Hput, Hurl. done.
Qed.

Lemma earlier_body_route_always_stores_witness :
  let pf := Sample.platform true in
  let w := Sample.world "p0q8r7s" Sample.no_fault in
  let c := Sample.context "10" (Sample.body_request (Some "image/jpeg") (Some "4") Sample.jpeg) in
  let s := {| uploads := [];
              images := [image_row "https://img.example.com/uploads/20240501120000000-k3j9x2a.jpg"
                           (calculateMD5 Sample.jpeg) None];
              r2 := {[ "uploads/20240501120000000-k3j9x2a.jpg"
                       := stored_object Sample.jpeg "image/jpeg" ]} |} in
  result (run pf w (upload_from_body_v1 pf c) s)
  = inr {| status := 200;
           body := SuccessBody "https://img.example.com/uploads/20240501120000000-p0q8r7s.jpg" |}
  /\ size (r2 (final (run pf w (upload_from_body_v1 pf c) s))) = 2%nat.
Proof.
  intros pf w c s.
  destruct (proj2 (earlier_body_route_always_stores pf w c s "image/jpeg"
                     "https://img.example.com/uploads/20240501120000000-p0q8r7s.jpg")
              eq_refl eq_refl eq_refl eq_refl eq_refl eq_refl eq_refl) as (Hres & Hr2).
  split; [exact Hres|]. rewrite Hr2. reflexivity.
Defined.

(** X17. The later [/upload-from-body] stores what the earlier one
    stored.  For a request that the admission check lets in and whose
    fingerprint is not in the index (D1 answering), the later route
    gives the same answer, or throws the same exception, as the earlier
    one, and leaves the same bucket: what the revision added is the
    admission row and the [images] row. *)
Theorem later_body_route_refines_earlier (pf : Platform) (w : World) (c : Context) (s : Store) :
  rejects w FCountUploads = false ->
  rejects w FInsertUpload = false ->
  rejects w FSelectImageUrl = false ->
  rejects w FInsertImage = false ->
  under_quota w c (client_ip c) (uploads s) = true ->
  select_image_url (calculateMD5 (raw_body (req c))) (images s) = None ->
  result (run pf w (upload_from_body pf c) s) = result (run pf w (upload_from_body_v1 pf c) s)
  /\ r2 (final (run pf w (upload_from_body pf c) s))
     = r2 (final (run pf w (upload_from_body_v1 pf c) s)).
Proof.
  intros Hcount Hinsert Hsel Hins Hquota Hmiss.
  rewrite upload_from_body_run, upload_from_body_v1_run.
  destruct (negb _); [done|].
  destruct (not_an_image _); [done|].
  destruct (exceeds _ _); [done|].
  cbv zeta. rewrite checkIPUploadCount_run, Hcount, Hinsert, Hquota.
  cbn [negb after result final].
  destruct (rejects w FRequestArrayBuffer); [done|].
  unfold ingest, record_image. rewrite Hsel. cbn [images set_uploads set_r2].
  rewrite Hmiss, Hins. cbn [Js.truthy after result final].
  destruct (rejects w FR2Put); [done|].
  destruct (url_with_pathname _ _ _); [|done].
  rewrite bool_decide_eq_false_2, andb_false_r by (by intros [? ?]). done.
Qed.

Lemma later_body_route_refines_earlier_witness :
  let pf := Sample.platform true in
  let w := Sample.world "k3j9x2a" (Sample.fault FR2Put) in
  let c := Sample.context "10" (Sample.body_request (Some "image/jpeg") (Some "4") Sample.jpeg) in
  result (run pf w (upload_from_body pf c) Sample.empty)
  = result (run pf w (upload_from_body_v1 pf c) Sample.empty).
Proof.
  intros pf w c.
  exact (proj1 (later_body_route_refines_earlier pf w c Sample.empty
                  eq_refl eq_refl eq_refl eq_refl eq_refl eq_refl)).
Defined.

(** X18. The earlier [/upload-from-url] keeps everything after the
    url check inside its [try]: whatever the request, the remote server
    and the failures of R2, it always answers and never throws, and it
    starts no D1 statement and leaves both tables as they are. *)
Theorem earlier_url_route_always_answers (pf : Platform) (w : World) (c : Context) (s : Store)
    (query_url : option string) :
  let o := run pf w (upload_from_url_v1 pf c query_url) s in
  (exists r, result o = inr r)
  /\ no_event is_d1 (trace o)
  /\ uploads (final o) = uploads s
  /\ images (final o) = images s.
Proof.
  cbv zeta. unfold upload_from_url_v1. run_all.
  destruct (negb _); [by split_and!; eauto|].
  destruct (negb (Js.truthy query_url)); [by split_and!; eauto|].
  run_all.
  destruct (remote w _) as [response|]; cbn [fst snd]; [|by split_and!; eauto].
  cbv zeta.
  destruct (not_an_image _) eqn:Himg; [by split_and!; eauto|].
  apply not_an_image_false in Himg as (ct & Hct & _ & Hne). rewrite Hct.
  change (default "" (Some ct)) with ct.
  destruct (exceeds _ _); [by split_and!; eauto|].
  run_all.
  destruct (response_body response) as [bytes|]; cbn [fst snd]; [|by split_and!; eauto].
  rewrite run_bind, uploadImageToR2_run by done.
  destruct (rejects w FR2Put); cbn [result final trace after run]; [by split_and!; eauto|].
  destruct (url_with_pathname _ _ _); cbn [result final trace after run]; by split_and!; eauto.
Qed.



